(** * auditok.io: a shallow embedding of the audio source layer

    The development follows [src/auditok/io.py]: the exception classes, the
    buffer check, the parameter resolver, [BufferAudioSource] and
    [StdinAudioSource], and the raw load and save paths.

    Conventions of the embedding:
    - a Python [bytes] object is a [list byte];
    - a Python [int] is a [Z]; a Python [float] is a binary64 number, with
      the rounding of its operations, where the code computes with times;
      quotients that are whole numbers and the chunk size are kept as exact
      rationals [Q];
    - a Python [str] is a [string] whose characters are the code points
      below 256;
    - a method that mutates [self] takes the object and returns the outcome
      together with the object after the call;
    - a raised exception is the [Raise] outcome, carrying the exception
      class and its message. *)

From Stdlib Require Import ZArith QArith Qround Lia List SpecFloat.
From Stdlib Require Import Strings.Byte Strings.Ascii Strings.String.
From stdpp Require Import gmap strings list pretty.

Local Open Scope Z_scope.

(** ** Python values and exceptions *)

Abbreviation bytes := (list byte).

(** A binary64 floating-point number. *)
Abbreviation float := spec_float.

(** The exception classes the module raises.  [AudioIOError] and
    [AudioParameterError] are the module's own (the latter a subclass of the
    former); the others are Python built-ins. *)
Inductive exn : Type :=
  | AudioIOError (msg : string)
  | AudioParameterError (msg : string)
  | ValueError (msg : string)
  | IOError (msg : string)
  | IndexError (msg : string)
  | ZeroDivisionError
  | OverflowError (msg : string)
  | FileNotFoundError (file : string).

Inductive result (A : Type) : Type :=
  | Ok (a : A)
  | Raise (e : exn).
Arguments Ok {A} a.
Arguments Raise {A} e.

Definition bind {A B} (r : result A) (k : A -> result B) : result B :=
  match r with
  | Ok a => k a
  | Raise e => Raise e
  end.

Declare Scope py_scope.
Delimit Scope py_scope with py.
Notation "x <- r ;; k" := (bind r (fun x => k))
  (at level 100, r at next level, right associativity) : py_scope.
Local Open Scope py_scope.

(** [isinstance(e, AudioParameterError)]. *)
Definition is_AudioParameterError (e : exn) : bool :=
  match e with
  | AudioParameterError _ => true
  | _ => false
  end.

(** Values a caller can put in an option dictionary.  [PyObj] stands for any
    object that is neither [None], a [bool], an [int] nor a [str] (a float, a
    list, ...): only its truth value and its [str()] rendering are used. *)
Inductive pyval : Type :=
  | PyNone
  | PyBool (b : bool)
  | PyInt (z : Z)
  | PyStr (s : string)
  | PyObj (truthy : bool) (text : string).

(** Python's truth value testing. *)
Definition truthy (v : pyval) : bool :=
  match v with
  | PyNone => false
  | PyBool b => b
  | PyInt z => negb (z =? 0)
  | PyStr s => negb (String.eqb s EmptyString)
  | PyObj t _ => t
  end.

(** [isinstance(v, int)]: [bool] is a subclass of [int]. *)
Definition isinstance_int (v : pyval) : bool :=
  match v with
  | PyInt _ | PyBool _ => true
  | _ => false
  end.

(** [a or b]. *)
Definition py_or (a b : pyval) : pyval := if truthy a then a else b.

(** [seq[i:j]] with Python's treatment of negative and out-of-range
    indices. *)
Definition clamp_index (n i : Z) : Z :=
  if i <? 0 then Z.max 0 (i + n) else Z.min i n.

Definition py_slice {A} (l : list A) (i j : Z) : list A :=
  let n := Z.of_nat (length l) in
  let a := clamp_index n i in
  let b := clamp_index n j in
  firstn (Z.to_nat (b - a)) (skipn (Z.to_nat a) l).

Definition len {A} (l : list A) : Z := Z.of_nat (length l).

(** ** Module constants *)

Definition DEFAULT_SAMPLE_RATE : Z := 16000.
Definition DEFAULT_SAMPLE_WIDTH : Z := 2.
Definition DEFAULT_NB_CHANNELS : Z := 1.

(** ** [check_audio_data] *)

Definition check_audio_data (data : bytes) (sample_width channels : Z)
  : result unit :=
  let sample_size_bytes := sample_width * channels in
  if sample_size_bytes =? 0 then Raise ZeroDivisionError
  else
    let nb_samples := len data / sample_size_bytes in
    if negb (nb_samples * sample_size_bytes =? len data) then
      Raise (AudioParameterError
        "The length of audio data must be an integer multiple of `sample_width * channels`")
    else Ok tt.

(** ** [AudioSource.__init__] *)

Definition AudioSource_init (sampling_rate sample_width channels : Z)
  : result unit :=
  if negb ((sample_width =? 1) || (sample_width =? 2) || (sample_width =? 4))
  then Raise (AudioParameterError
                "Sample width must be one of: 1, 2 or 4 (bytes)")
  else if negb (channels =? 1)
  then Raise (AudioParameterError "Only mono audio is currently supported")
  else Ok tt.

(** ** [BufferAudioSource] *)

Record BufferAudioSource : Type := mkBufferAudioSource {
  _sampling_rate : Z;
  _sample_width : Z;
  _channels : Z;
  _buffer : bytes;
  _sample_size_all_channels : Z;
  _current_position_bytes : Z;
  _is_open : bool
}.

Definition with_position (self : BufferAudioSource) (p : Z)
  : BufferAudioSource :=
  {| _sampling_rate := _sampling_rate self;
     _sample_width := _sample_width self;
     _channels := _channels self;
     _buffer := _buffer self;
     _sample_size_all_channels := _sample_size_all_channels self;
     _current_position_bytes := p;
     _is_open := _is_open self |}.

Definition with_buffer (self : BufferAudioSource) (b : bytes)
  : BufferAudioSource :=
  {| _sampling_rate := _sampling_rate self;
     _sample_width := _sample_width self;
     _channels := _channels self;
     _buffer := b;
     _sample_size_all_channels := _sample_size_all_channels self;
     _current_position_bytes := _current_position_bytes self;
     _is_open := _is_open self |}.

Definition with_is_open (self : BufferAudioSource) (o : bool)
  : BufferAudioSource :=
  {| _sampling_rate := _sampling_rate self;
     _sample_width := _sample_width self;
     _channels := _channels self;
     _buffer := _buffer self;
     _sample_size_all_channels := _sample_size_all_channels self;
     _current_position_bytes := _current_position_bytes self;
     _is_open := o |}.

Module BufferAudioSource.

(** [BufferAudioSource.__init__]. *)
Definition init (data_buffer : bytes)
    (sampling_rate sample_width channels : Z) : result BufferAudioSource :=
  _ <- AudioSource_init sampling_rate sample_width channels ;;
  _ <- check_audio_data data_buffer sample_width channels ;;
  Ok {| _sampling_rate := sampling_rate;
        _sample_width := sample_width;
        _channels := channels;
        _buffer := data_buffer;
        _sample_size_all_channels := sample_width * channels;
        _current_position_bytes := 0;
        _is_open := false |}.

Definition is_open (self : BufferAudioSource) : bool := _is_open self.

Definition open (self : BufferAudioSource) : BufferAudioSource :=
  with_is_open self true.

Definition read (self : BufferAudioSource) (size : Z)
  : result (option bytes) * BufferAudioSource :=
  if negb (_is_open self) then
    (Raise (AudioIOError "Stream is not open"), self)
  else
    let bytes_to_read := _sample_size_all_channels self * size in
    let data :=
      py_slice (_buffer self) (_current_position_bytes self)
               (_current_position_bytes self + bytes_to_read) in
    match data with
    | _ :: _ =>
        (Ok (Some data),
         with_position self (_current_position_bytes self + len data))
    | [] => (Ok None, self)
    end.

Definition get_data_buffer (self : BufferAudioSource) : bytes :=
  _buffer self.

Definition set_data (self : BufferAudioSource) (data_buffer : bytes)
  : result unit * BufferAudioSource :=
  match check_audio_data data_buffer (_sample_width self) (_channels self) with
  | Raise e => (Raise e, self)
  | Ok _ => (Ok tt, with_position (with_buffer self data_buffer) 0)
  end.

Definition append_data (self : BufferAudioSource) (data_buffer : bytes)
  : result unit * BufferAudioSource :=
  match check_audio_data data_buffer (_sample_width self) (_channels self) with
  | Raise e => (Raise e, self)
  | Ok _ => (Ok tt, with_buffer self (_buffer self ++ data_buffer))
  end.

(** [get_position]: [/] is true division; its quotient is kept as the
    exact rational. *)
Definition get_position (self : BufferAudioSource) : result Q :=
  if _sample_size_all_channels self =? 0 then Raise ZeroDivisionError
  else Ok (inject_Z (_current_position_bytes self)
           / inject_Z (_sample_size_all_channels self))%Q.

(** [int(x)] on an exact value: truncation towards zero. *)
Definition py_int (x : Q) : Z := Z.quot (Qnum x) (Z.pos (Qden x)).

(** The conversion of an [int] to a float, as in [float(z)] and in the
    mixed operations [z * x] and [x / z]: the nearest binary64 number, ties to
    even; an [int] beyond the range of the floats raises. *)
Definition float_of_int (z : Z) : result float :=
  match binary_normalize 53 1024 z 0 false with
  | S754_infinity _ => Raise (OverflowError "int too large to convert to float")
  | x => Ok x
  end.

(** [z * x] for an [int] and a float. *)
Definition int_times_float (z : Z) (x : float) : result float :=
  y <- float_of_int z ;; Ok (SFmul 53 1024 y x).

(** [x / y] on floats. *)
Definition float_div (x y : float) : result float :=
  match y with
  | S754_zero _ => Raise ZeroDivisionError
  | _ => Ok (SFdiv 53 1024 x y)
  end.

(** [float(a) / b] for two [int]s. *)
Definition float_over_int (a b : Z) : result float :=
  x <- float_of_int a ;; y <- float_of_int b ;; float_div x y.

(** The exact value of a finite float with sign [s], mantissa [m] and
    exponent [e]. *)
Definition finite_value (s : bool) (m : positive) (e : Z) : Q :=
  ((if s then - (1) else 1) * inject_Z (Z.pos m) * (2 # 1) ^ e)%Q.

Definition float_value (x : float) : option Q :=
  match x with
  | S754_zero _ => Some 0%Q
  | S754_finite s m e => Some (finite_value s m e)
  | _ => None
  end.

(** [int(x)] on a float: the exact value truncated towards zero; an
    infinity and a NaN raise. *)
Definition int_of_float (x : float) : result Z :=
  match x with
  | S754_nan => Raise (ValueError "cannot convert float NaN to integer")
  | S754_infinity _ =>
      Raise (OverflowError "cannot convert float infinity to integer")
  | S754_zero _ => Ok 0
  | S754_finite s m e => Ok (py_int (finite_value s m e))
  end.

Definition get_time_position (self : BufferAudioSource) : result float :=
  float_over_int (_current_position_bytes self)
                 (_sample_size_all_channels self * _sampling_rate self).

Definition set_position (self : BufferAudioSource) (position : Z)
  : result unit * BufferAudioSource :=
  if position <? 0 then (Raise (ValueError "position must be >= 0"), self)
  else
    let position := position * _sample_size_all_channels self in
    (Ok tt,
     with_position self
       (if position <? len (_buffer self) then position
        else len (_buffer self))).

Definition rewind (self : BufferAudioSource)
  : result unit * BufferAudioSource :=
  set_position self 0.

Definition close (self : BufferAudioSource)
  : result unit * BufferAudioSource :=
  rewind (with_is_open self false).

Definition set_time_position (self : BufferAudioSource) (time_position : float)
  : result unit * BufferAudioSource :=
  match int_times_float (_sampling_rate self) time_position with
  | Raise e => (Raise e, self)
  | Ok product =>
      match int_of_float product with
      | Raise e => (Raise e, self)
      | Ok position => set_position self position
      end
  end.

End BufferAudioSource.

(** ** [StdinAudioSource] *)

(** [sys.stdin.buffer.read(n)] on a standard input that still holds [stream]
    before its end: the bytes returned and the bytes left.  With [n = -1]
    everything up to the end is read; a lower [n] is refused with a
    [ValueError]; otherwise at most [n] bytes are returned, fewer only when
    the end of the stream is reached. *)
Definition stdin_buffer_read (stream : bytes) (n : Z) : result (bytes * bytes) :=
  if n <? -1 then Raise (ValueError "read length must be non-negative or -1")
  else if n =? -1 then Ok (stream, [])
  else Ok (firstn (Z.to_nat n) stream, skipn (Z.to_nat n) stream).

Module StdinAudioSource.

Record t : Type := mk {
  _sampling_rate : Z;
  _sample_width : Z;
  _channels : Z;
  _is_open : bool
}.

Definition init (sampling_rate sample_width channels : Z) : result t :=
  _ <- AudioSource_init sampling_rate sample_width channels ;;
  Ok {| _sampling_rate := sampling_rate;
        _sample_width := sample_width;
        _channels := channels;
        _is_open := false |}.

Definition is_open (self : t) : bool := _is_open self.

Definition open (self : t) : t :=
  {| _sampling_rate := _sampling_rate self;
     _sample_width := _sample_width self;
     _channels := _channels self;
     _is_open := true |}.

Definition close (self : t) : t :=
  {| _sampling_rate := _sampling_rate self;
     _sample_width := _sample_width self;
     _channels := _channels self;
     _is_open := false |}.

(** [read]: the object is not modified; the standard input is, so it is
    threaded through the call. *)
Definition read (self : t) (size : Z) (stdin : bytes)
  : result (option bytes) * bytes :=
  if negb (_is_open self) then (Raise (IOError "Stream is not open"), stdin)
  else
    let to_read := size * _sample_width self * _channels self in
    match stdin_buffer_read stdin to_read with
    | Raise e => (Raise e, stdin)
    | Ok (data, rest) =>
        if len data <? 1 then (Ok None, rest) else (Ok (Some data), rest)
    end.

End StdinAudioSource.

(** ** Format guessing *)

(** [str.lower] on one character: among the code points below 256 the
    upper-case letters are [A]-[Z] and U+00C0-U+00DE without the
    multiplication sign U+00D7, and each has its lower-case letter 32 code
    points further. *)
Definition lower_char (c : ascii) : ascii :=
  let n := nat_of_ascii c in
  if (((65 <=? n) && (n <=? 90))
      || ((192 <=? n) && (n <=? 222) && negb (n =? 215)))%nat
  then ascii_of_nat (n + 32) else c.

Definition lower (s : string) : string :=
  string_of_list_ascii (map lower_char (list_ascii_of_string s)).

(** [p.rfind(c)]: the highest index of [c] in [p], or [-1]. *)
Fixpoint rfind_from (c : ascii) (p : list ascii) (i acc : Z) : Z :=
  match p with
  | [] => acc
  | x :: p' => rfind_from c p' (i + 1) (if Ascii.eqb x c then i else acc)
  end.

Definition rfind (c : ascii) (p : list ascii) : Z := rfind_from c p 0 (-1).

(** [os.path.splitext(p)[1]] with the POSIX separator: the extension starts
    at the last dot of the last path component, unless only dots precede it
    in that component. *)
Definition splitext_ext (p : string) : string :=
  let l := list_ascii_of_string p in
  let sepIndex := rfind "/"%char l in
  let dotIndex := rfind "."%char l in
  if (sepIndex <? dotIndex)
     && existsb (fun x => negb (Ascii.eqb x "."%char))
                (py_slice l (sepIndex + 1) dotIndex)
  then string_of_list_ascii (skipn (Z.to_nat dotIndex) l)
  else EmptyString.

(** [s[1:]]. *)
Definition drop_first (s : string) : string :=
  match s with
  | EmptyString => EmptyString
  | String _ s' => s'
  end.

Definition _guess_audio_format (fmt : option string) (filename : string)
  : option string :=
  match fmt with
  | None =>
      let extension := drop_first (splitext_ext (lower filename)) in
      if String.eqb extension EmptyString then None else Some extension
  | Some f => Some (lower f)
  end.

(** ** Parameter resolution *)

(** [str(v)], as used by [str.format]. *)
Definition py_str (v : pyval) : string :=
  match v with
  | PyNone => "None"
  | PyBool true => "True"
  | PyBool false => "False"
  | PyInt z => pretty z
  | PyStr s => s
  | PyObj _ text => text
  end.

(** [["left", "right"].index(v)]. *)
Definition left_right_index (v : pyval) : option Z :=
  match v with
  | PyStr s =>
      if String.eqb s "left" then Some 0
      else if String.eqb s "right" then Some 1 else None
  | _ => None
  end.

Definition is_mix (v : pyval) : bool :=
  match v with
  | PyStr s => String.eqb s "mix"
  | _ => false
  end.

(** In the source the message is assigned from the first string literal
    only: the continuation line is a separate expression statement. *)
Definition _normalize_use_channel (use_channel : pyval) : result pyval :=
  match use_channel with
  | PyNone => Ok (PyInt 0)
  | _ =>
      if is_mix use_channel || isinstance_int use_channel then Ok use_channel
      else match left_right_index use_channel with
           | Some i => Ok (PyInt i)
           | None =>
               Raise (AudioParameterError
                        "'use_channel' parameter must be an integer ")
           end
  end.

(** [d.get(k, None)]. *)
Definition dict_get (d : gmap string pyval) (k : string) : pyval :=
  default PyNone (d !! k).

Definition err_message (ln sn : string) (val : pyval) : string :=
  "'" +:+ ln +:+ "' (or '" +:+ sn +:+ "') must be an integer, found: '"
    +:+ py_str val +:+ "'".

Definition required_names : list (string * string) :=
  [("sampling_rate", "sr"); ("sample_width", "sw"); ("channels", "ch")].

(** One iteration of the loop of [_get_audio_parameters]. *)
Definition get_required (param_dict : gmap string pyval)
    (names : string * string) : result pyval :=
  let '(long_name, short_name) := names in
  let param := py_or (dict_get param_dict long_name)
                     (dict_get param_dict short_name) in
  match param with
  | PyNone => Raise (AudioParameterError (err_message long_name short_name param))
  | _ =>
      if negb (isinstance_int param)
      then Raise (AudioParameterError (err_message long_name short_name param))
      else Ok param
  end.

Fixpoint get_all_required (param_dict : gmap string pyval)
    (names : list (string * string)) : result (list pyval) :=
  match names with
  | [] => Ok []
  | n :: rest =>
      param <- get_required param_dict n ;;
      parameters <- get_all_required param_dict rest ;;
      Ok (param :: parameters)
  end.

Definition _get_audio_parameters (param_dict : gmap string pyval)
  : result (list pyval) :=
  parameters <- get_all_required param_dict required_names ;;
  let use_channel :=
    match param_dict !! "use_channel" with
    | Some v => v
    | None => default (PyInt 0) (param_dict !! "uc")
    end in
  uc <- _normalize_use_channel use_channel ;;
  Ok (parameters ++ [uc]).

(** ** Samples: signed little-endian integers *)

Definition byte_value (b : byte) : Z := Z.of_N (Byte.to_N b).

Definition byte_of (z : Z) : byte :=
  match Byte.of_N (Z.to_N z) with
  | Some b => b
  | None => x00
  end.

Fixpoint le_unsigned (bs : bytes) : Z :=
  match bs with
  | [] => 0
  | b :: bs' => byte_value b + 256 * le_unsigned bs'
  end.

Fixpoint le_bytes (w : nat) (u : Z) : bytes :=
  match w with
  | O => []
  | S w' => byte_of (u mod 256) :: le_bytes w' (u / 256)
  end.

(** A sample of [len bs] bytes read as a signed integer. *)
Definition decode_sample (bs : bytes) : Z :=
  let u := le_unsigned bs in
  if u <? 2 ^ (8 * len bs - 1) then u else u - 2 ^ (8 * len bs).

(** A signed integer written on [w] bytes. *)
Definition encode_sample (w : Z) (v : Z) : bytes :=
  le_bytes (Z.to_nat w) (v mod 2 ^ (8 * w)).

(** ** Channel extraction *)

(** The rounding of a mean that falls half-way between two integers. *)
Inductive tie_rule : Type := HalfEven | HalfUp.

(** [s / n] rounded to a nearest integer, for [0 < n]. *)
Definition round_div (tie : tie_rule) (s n : Z) : Z :=
  let q := s / n in
  let r := s mod n in
  match 2 * r ?= n with
  | Lt => q
  | Gt => q + 1
  | Eq => match tie with
          | HalfUp => q + 1
          | HalfEven => if Z.even q then q else q + 1
          end
  end.

(** The bytes of channel [c] in frame [k] of an interleaved buffer. *)
Definition sample_at (data : bytes) (channels sample_width k c : Z) : bytes :=
  py_slice data ((k * channels + c) * sample_width)
                ((k * channels + c + 1) * sample_width).

Definition indices (n : Z) : list Z := map Z.of_nat (seq 0 (Z.to_nat n)).

Definition sum_Z (l : list Z) : Z := fold_right Z.add 0 l.

(** Modelled from the spec: [_extract_selected_channel] is called by the
    load paths but io.py does not define it.  The spec (Channel Extractor)
    asks that the buffer length be a multiple of [channels * sample_width]
    (parameter error otherwise); that an integer [use_channel] copies that
    channel's bytes of every frame, in order (index error when the index is
    not below [channels]); and that ["mix"] replaces every frame by the mean
    of its samples, decoded as signed integers, rounded to a nearest integer
    and encoded on [sample_width] bytes.  The rounding of ties is left open
    by the spec and is the argument [tie]; a negative index and a directive
    that is neither an integer nor ["mix"] are rejected as well. *)
Definition _extract_selected_channel (tie : tie_rule) (data : bytes)
    (channels sample_width : Z) (use_channel : pyval) : result bytes :=
  let frame_size := channels * sample_width in
  if (frame_size <=? 0) || negb (len data mod frame_size =? 0) then
    Raise (AudioParameterError
      "The length of audio data must be an integer multiple of `sample_width * channels`")
  else
    let frames := indices (len data / frame_size) in
    match use_channel with
    | PyInt i =>
        if (i <? 0) || (channels <=? i) then
          Raise (IndexError "channel index out of range")
        else
          Ok (concat (map (fun k => sample_at data channels sample_width k i)
                          frames))
    | _ =>
        if is_mix use_channel then
          Ok (concat (map
                (fun k =>
                   encode_sample sample_width
                     (round_div tie
                        (sum_Z (map (fun c =>
                                  decode_sample
                                    (sample_at data channels sample_width k c))
                                (indices channels)))
                        channels))
                frames))
        else
          Raise (AudioParameterError
                   "'use_channel' parameter must be an integer ")
    end.

(** ** Files *)

(** The file system: the content of every existing file, by path. *)
Abbreviation filesystem := (gmap string bytes).

(** What a load path returns: a buffer source, or, for the lazy branch of
    [_load_raw], the call [RawAudioSource(file, ...)] it makes (that class is
    not defined in io.py, so the call is kept as it is written). *)
Inductive loaded_source : Type :=
  | Eager (src : BufferAudioSource)
  | LazyRaw (file : string) (sampling_rate sample_width channels : Z)
            (use_channel : pyval).

Definition _load_raw (tie : tie_rule) (fs : filesystem) (file : string)
    (sampling_rate sample_width channels : option Z) (use_channel : pyval)
    (large_file : bool) : result loaded_source :=
  match sampling_rate, sample_width, channels with
  | Some sr, Some sw, Some ch =>
      if large_file then Ok (LazyRaw file sr sw ch use_channel)
      else
        match fs !! file with
        | None => Raise (FileNotFoundError file)
        | Some data =>
            data <- (if negb (ch =? 1)
                     then _extract_selected_channel tie data ch sw use_channel
                     else Ok data) ;;
            src <- BufferAudioSource.init data sr sw 1 ;;
            Ok (Eager src)
        end
  | _, _, _ =>
      Raise (AudioParameterError
               "All audio parameters are required for raw audio files")
  end.

Section Save.

(** What the operating system answers to [open(file, "wb")]: the error it
    raises, if any (a missing directory, an empty name, a directory under
    that name, no permission, ...). *)
Variable open_wb_error : filesystem -> string -> option exn.

Definition _save_raw (fs : filesystem) (file : string) (data : bytes)
  : result unit * filesystem :=
  match open_wb_error fs file with
  | Some e => (Raise e, fs)
  | None => (Ok tt, <[file := data]> fs)
  end.

(** The collaborators of the save path: whether pydub was imported, the
    wave writer behind [_save_wave] and the pydub export behind
    [_save_with_pydub]. *)
Variable _WITH_PYDUB : bool.
Variable _save_wave :
  filesystem -> string -> bytes -> pyval -> pyval -> pyval ->
  result unit * filesystem.
Variable _save_with_pydub :
  filesystem -> string -> bytes -> string -> pyval -> pyval -> pyval ->
  result unit * filesystem.

Definition is_raw_format (audio_format : option string) : bool :=
  match audio_format with
  | None => true
  | Some f => String.eqb f "raw"
  end.

Definition is_wave_format (f : string) : bool :=
  String.eqb f "wav" || String.eqb f "wave".

Definition to_file (fs : filesystem) (data : bytes) (file : string)
    (audio_format : option string) (kwargs : gmap string pyval)
  : result unit * filesystem :=
  let audio_format := _guess_audio_format audio_format file in
  if is_raw_format audio_format then _save_raw fs file data
  else
    match _get_audio_parameters kwargs with
    | Raise e =>
        if is_AudioParameterError e then
          (Raise (AudioParameterError
                    "All audio parameters are required to save formats "),
           fs)
        else (Raise e, fs)
    | Ok [sampling_rate; sample_width; channels; _] =>
        let f := default EmptyString audio_format in
        if is_wave_format f then
          _save_wave fs file data sampling_rate sample_width channels
        else if _WITH_PYDUB then
          _save_with_pydub fs file data f sampling_rate sample_width channels
        else
          (Raise (AudioIOError
             ("cannot write file format " +:+ f +:+ " (file name: " +:+ file
                +:+ ")")),
           fs)
    | Ok _ => (Raise (ValueError "not enough values to unpack"), fs)
    end.

End Save.

(** ** Rounding a float, as the spec words it *)

(** [round(x)]: the nearest integer, ties to the even one. *)
Definition py_round (x : Q) : Z :=
  let f := Qfloor x in
  match (x - inject_Z f ?= 1 # 2)%Q with
  | Lt => f
  | Gt => f + 1
  | Eq => if Z.even f then f else f + 1
  end.

(** ** The invariant of [BufferAudioSource] *)

(** What the constructor establishes and every method keeps: a supported
    sample width, one channel, the frame size of these two, a buffer of whole
    frames and a position on a frame boundary inside the buffer. *)
Record wf (s : BufferAudioSource) : Prop := mk_wf {
  wf_width : _sample_width s = 1 \/ _sample_width s = 2 \/ _sample_width s = 4;
  wf_channels : _channels s = 1;
  wf_frame : _sample_size_all_channels s = _sample_width s * _channels s;
  wf_buffer : len (_buffer s) mod _sample_size_all_channels s = 0;
  wf_position : 0 <= _current_position_bytes s <= len (_buffer s);
  wf_aligned : _current_position_bytes s mod _sample_size_all_channels s = 0
}.

(** The number of samples the buffer holds. *)
Definition total_samples (s : BufferAudioSource) : Z :=
  len (_buffer s) / _sample_size_all_channels s.

(** ** Sample objects *)

(** The frames (100, 200) and (-50, 50) of two channels of 2-byte samples. *)
Definition stereo_frames : bytes := [x64; x00; xc8; x00; xce; xff; x32; x00].

(** The 2-byte samples 150 and 0. *)
Definition mixed_frames : bytes := [x96; x00; x00; x00].

(** A source over four 2-byte samples at 16 kHz, as the constructor leaves
    it, and the same source once opened. *)
Definition four_samples : BufferAudioSource :=
  {| _sampling_rate := 16000;
     _sample_width := 2;
     _channels := 1;
     _buffer := stereo_frames;
     _sample_size_all_channels := 2;
     _current_position_bytes := 0;
     _is_open := false |}.

Definition four_samples_open : BufferAudioSource :=
  BufferAudioSource.open four_samples.

(** A standard-input source of 2-byte mono samples, opened. *)
Definition stdin_source : StdinAudioSource.t :=
  StdinAudioSource.open
    {| StdinAudioSource._sampling_rate := 16000;
       StdinAudioSource._sample_width := 2;
       StdinAudioSource._channels := 1;
       StdinAudioSource._is_open := false |}.

(** Options in which the long name [sampling_rate] is present with the
    value 0 next to its alias [sr]. *)
Definition zero_rate_options : gmap string pyval :=
  <["sampling_rate" := PyInt 0]>
    (<["sr" := PyInt 16000]>
       (<["sample_width" := PyInt 2]> (<["channels" := PyInt 1]> ∅))).

(** Options in which the long name [sample_width] holds an empty string
    next to its alias [sw]. *)
Definition empty_width_options : gmap string pyval :=
  <["sampling_rate" := PyInt 16000]>
    (<["sample_width" := PyStr EmptyString]>
       (<["sw" := PyInt 2]> (<["channels" := PyInt 1]> ∅))).

(** Options with a long name and its alias, and options with aliases
    only. *)
Definition long_and_alias_options : gmap string pyval :=
  <["sampling_rate" := PyInt 8000]>
    (<["sr" := PyInt 16000]>
       (<["sample_width" := PyInt 2]> (<["channels" := PyInt 1]> ∅))).

Definition alias_only_options : gmap string pyval :=
  <["sr" := PyInt 16000]> (<["sw" := PyInt 2]> (<["ch" := PyInt 1]> ∅)).

(** Options without any channel count. *)
Definition no_channels_options : gmap string pyval :=
  <["sampling_rate" := PyInt 16000]> (<["sample_width" := PyInt 2]> ∅).

(** A machine without pydub, and writers that refuse every file: the raw
    path and the parameter check run before any of them is called. *)
Definition refuse_wave (fs : filesystem) (file : string) (data : bytes)
    (sampling_rate sample_width channels : pyval) : result unit * filesystem :=
  (Raise (IOError file), fs).

Definition refuse_pydub (fs : filesystem) (file : string) (data : bytes)
    (audio_format : string) (sampling_rate sample_width channels : pyval)
  : result unit * filesystem :=
  (Raise (IOError file), fs).

(** [c not in l], for the characters of a file name. *)
Definition no_char (c : ascii) (l : list ascii) : bool :=
  forallb (fun x => negb (Ascii.eqb x c)) l.

(** ** Sequences of method calls on a buffer source *)

(** The methods of [BufferAudioSource] that can change the object. *)
Inductive method : Type :=
  | Open
  | Close
  | Read (size : Z)
  | SetData (data_buffer : bytes)
  | AppendData (data_buffer : bytes)
  | Rewind
  | SetPosition (position : Z)
  | SetTimePosition (time_position : float).

(** The object after one call, whether the call returned or raised. *)
Definition call (self : BufferAudioSource) (m : method) : BufferAudioSource :=
  match m with
  | Open => BufferAudioSource.open self
  | Close => snd (BufferAudioSource.close self)
  | Read size => snd (BufferAudioSource.read self size)
  | SetData b => snd (BufferAudioSource.set_data self b)
  | AppendData b => snd (BufferAudioSource.append_data self b)
  | Rewind => snd (BufferAudioSource.rewind self)
  | SetPosition p => snd (BufferAudioSource.set_position self p)
  | SetTimePosition t => snd (BufferAudioSource.set_time_position self t)
  end.

Definition calls (self : BufferAudioSource) (ms : list method)
  : BufferAudioSource :=
  fold_left call ms self.

(** ** [PyAudioPlayer._chunk_data] *)

(** [int((sampling_rate * sample_width * channels) / 10)]. *)
Definition chunk_size_of (sampling_rate sample_width channels : Z) : Z :=
  BufferAudioSource.py_int
    (inject_Z (sampling_rate * sample_width * channels) / inject_Z 10)%Q.

(** The [while] loop of the generator, run to its end: the chunks it yields,
    in order.  Every iteration takes one unit of [fuel]; the outcome is
    [None] when the fuel does not suffice. *)
Fixpoint chunk_loop (fuel : nat) (data : bytes) (chunk_size start : Z)
  : option (list bytes) :=
  match fuel with
  | O => if start <? len data then None else Some []
  | S fuel' =>
      if start <? len data then
        match chunk_loop fuel' data chunk_size (start + chunk_size) with
        | Some chunks =>
            Some (py_slice data start (start + chunk_size) :: chunks)
        | None => None
        end
      else Some []
  end.

Definition _chunk_data (fuel : nat)
    (sampling_rate sample_width channels : Z) (data : bytes)
  : option (list bytes) :=
  chunk_loop fuel data (chunk_size_of sampling_rate sample_width channels) 0.

(** Chunks of [chunk_size] bytes, the last one possibly shorter but not
    empty. *)
Fixpoint chunks_of_size (chunk_size : Z) (chunks : list bytes) : Prop :=
  match chunks with
  | [] => True
  | c :: rest =>
      match rest with
      | [] => 0 < len c <= chunk_size
      | _ :: _ => len c = chunk_size
      end
      /\ chunks_of_size chunk_size rest
  end.

(** Times, as the floats that the literals [0.0001], [1.0], [-0.001] and
    [-5e-05] denote. *)
Definition time_0_0001 : float := S754_finite false 7378697629483821 (-66).
Definition time_1_0 : float := S754_finite false 4503599627370496 (-52).
Definition time_minus_0_001 : float := S754_finite true 4611686018427388 (-62).
Definition time_minus_0_00005 : float :=
  S754_finite true 7378697629483821 (-67).

(** A working directory without sub-directories: a name can be opened for
    writing when it is not empty and holds no separator. *)
Definition flat_directory (fs : filesystem) (file : string) : option exn :=
  if String.eqb file EmptyString
     || negb (no_char "/" (list_ascii_of_string file))
  then Some (FileNotFoundError file) else None.

(** * Properties *)

(** ** Slices and the buffer check *)

Lemma len_nonneg {A} (l : list A) : 0 <= len l.
Proof. unfold len. lia. Qed.

Lemma clamp_index_range n i : 0 <= n -> 0 <= clamp_index n i <= n.
Proof. unfold clamp_index. destruct (Z.ltb_spec i 0); lia. Qed.

Lemma py_slice_len {A} (l : list A) a j :
  0 <= a <= len l ->
  len (py_slice l a j) = Z.max 0 (clamp_index (len l) j - a).
Proof.
  intros Ha. unfold py_slice, len in *.
  pose proof (clamp_index_range (Z.of_nat (length l)) j ltac:(lia)) as Hb.
  assert (Hc : clamp_index (Z.of_nat (length l)) a = a)
    by (unfold clamp_index; destruct (Z.ltb_spec a 0); lia).
  rewrite Hc, length_firstn, length_skipn. lia.
Qed.

Lemma py_slice_inside {A} (l : list A) a j :
  0 <= a <= len l -> a <= j ->
  py_slice l a j =
  firstn (Z.to_nat (Z.min j (len l) - a)) (skipn (Z.to_nat a) l).
Proof.
  intros Ha Hj. unfold py_slice, len in *. unfold clamp_index.
  destruct (Z.ltb_spec a 0); [lia|]. destruct (Z.ltb_spec j 0); [lia|].
  do 2 f_equal; lia.
Qed.

Lemma py_slice_empty {A} (l : list A) a : py_slice l a a = [].
Proof. unfold py_slice. now rewrite Z.sub_diag. Qed.

Lemma check_audio_data_aligned data sw ch :
  sw * ch <> 0 -> len data mod (sw * ch) = 0 ->
  check_audio_data data sw ch = Ok tt.
Proof.
  intros Hnz Hmod. unfold check_audio_data.
  destruct (Z.eqb_spec (sw * ch) 0) as [|_]; [contradiction|].
  apply Z.div_exact in Hmod; [|assumption].
  destruct (Z.eqb_spec (len data / (sw * ch) * (sw * ch)) (len data));
    [reflexivity | lia].
Qed.

Lemma check_audio_data_inv data sw ch u :
  check_audio_data data sw ch = Ok u ->
  sw * ch <> 0 /\ len data mod (sw * ch) = 0.
Proof.
  unfold check_audio_data.
  destruct (Z.eqb_spec (sw * ch) 0) as [|Hnz]; [discriminate|].
  destruct (Z.eqb_spec (len data / (sw * ch) * (sw * ch)) (len data)) as [E|];
    [intros _ | discriminate].
  split; [assumption|]. apply Z.div_exact; lia.
Qed.

Lemma check_audio_data_misaligned data sw ch :
  sw * ch <> 0 -> len data mod (sw * ch) <> 0 ->
  exists msg, check_audio_data data sw ch = Raise (AudioParameterError msg).
Proof.
  intros Hnz Hmod. unfold check_audio_data.
  destruct (Z.eqb_spec (sw * ch) 0) as [|_]; [contradiction|].
  destruct (Z.eqb_spec (len data / (sw * ch) * (sw * ch)) (len data)) as [E|];
    [|eexists; reflexivity].
  exfalso. apply Hmod. apply Z.div_exact; lia.
Qed.

(** ** The invariant is established and kept *)

Lemma wf_frame_pos s : wf s -> 0 < _sample_size_all_channels s.
Proof. intros [Hw Hc Hf _ _ _]. rewrite Hf, Hc. lia. Qed.

Lemma AudioSource_init_inv sr sw ch u :
  AudioSource_init sr sw ch = Ok u -> (sw = 1 \/ sw = 2 \/ sw = 4) /\ ch = 1.
Proof.
  unfold AudioSource_init.
  destruct (Z.eqb_spec sw 1), (Z.eqb_spec sw 2), (Z.eqb_spec sw 4);
    cbn [negb orb]; try discriminate;
    (destruct (Z.eqb_spec ch 1); cbn [negb]; [|discriminate]);
    intros _; lia.
Qed.

Lemma init_wf data sr sw ch s :
  BufferAudioSource.init data sr sw ch = Ok s -> wf s.
Proof.
  unfold BufferAudioSource.init. intros H.
  destruct (AudioSource_init sr sw ch) eqn:Ha; cbn [bind] in H; [|discriminate].
  destruct (check_audio_data data sw ch) eqn:Hc; cbn [bind] in H; [|discriminate].
  apply AudioSource_init_inv in Ha as [Hw ->].
  apply check_audio_data_inv in Hc as [_ Hm].
  injection H as <-. pose proof (len_nonneg data).
  constructor; cbn; try assumption; try reflexivity; lia.
Qed.

Lemma open_wf s : wf s -> wf (BufferAudioSource.open s).
Proof. intros []. constructor; assumption. Qed.

Lemma set_position_wf s p r s' :
  wf s -> BufferAudioSource.set_position s p = (r, s') -> wf s'.
Proof.
  intros Hwf. pose proof (wf_frame_pos s Hwf) as Hpos. destruct Hwf.
  unfold BufferAudioSource.set_position.
  destruct (Z.ltb_spec p 0); intros [= <- <-]; [constructor; assumption|].
  pose proof (len_nonneg (_buffer s)).
  constructor; cbn; try assumption.
  - destruct (Z.ltb_spec (p * _sample_size_all_channels s) (len (_buffer s))); nia.
  - destruct (Z.ltb_spec (p * _sample_size_all_channels s) (len (_buffer s)));
      [apply Z.mod_mul; lia | assumption].
Qed.

Lemma close_wf s r s' :
  wf s -> BufferAudioSource.close s = (r, s') -> wf s'.
Proof.
  intros Hwf. apply set_position_wf. destruct Hwf. constructor; assumption.
Qed.

Lemma set_data_wf s b r s' :
  wf s -> BufferAudioSource.set_data s b = (r, s') -> wf s'.
Proof.
  intros Hwf. pose proof (wf_frame_pos s Hwf) as Hpos. destruct Hwf as [? ? Hf ? ? ?].
  unfold BufferAudioSource.set_data.
  destruct (check_audio_data b _ _) eqn:Hc; intros [= <- <-];
    [|constructor; assumption].
  apply check_audio_data_inv in Hc as [_ Hm]. rewrite <- Hf in Hm.
  pose proof (len_nonneg b).
  constructor; cbn; try assumption; [lia | apply Z.mod_0_l; lia].
Qed.

Lemma len_app {A} (l1 l2 : list A) : len (l1 ++ l2) = len l1 + len l2.
Proof. unfold len. rewrite length_app. lia. Qed.

Lemma append_data_wf s b r s' :
  wf s -> BufferAudioSource.append_data s b = (r, s') -> wf s'.
Proof.
  intros Hwf. pose proof (wf_frame_pos s Hwf) as Hpos. destruct Hwf as [? ? Hf Hb ? ?].
  unfold BufferAudioSource.append_data.
  destruct (check_audio_data b _ _) eqn:Hc; intros [= <- <-];
    [|constructor; assumption].
  apply check_audio_data_inv in Hc as [_ Hm]. rewrite <- Hf in Hm.
  pose proof (len_nonneg b).
  constructor; cbn; try assumption; rewrite len_app.
  - rewrite Z.add_mod, Hb, Hm by lia. reflexivity.
  - lia.
Qed.

Lemma read_wf s size r s' :
  wf s -> BufferAudioSource.read s size = (r, s') -> wf s'.
Proof.
  intros Hwf. pose proof (wf_frame_pos s Hwf) as Hpos.
  destruct Hwf as [? ? ? Hb Hp Ha].
  unfold BufferAudioSource.read.
  destruct (_is_open s); cbn [negb]; [|intros [= <- <-]; constructor; assumption].
  set (j := _current_position_bytes s + _sample_size_all_channels s * size).
  destruct (py_slice _ _ j) as [|x data] eqn:Hs;
    intros [= <- <-]; [constructor; assumption|].
  rewrite <- Hs. clear Hs.
  pose proof (py_slice_len (_buffer s) _ j Hp) as Hl.
  pose proof (clamp_index_range (len (_buffer s)) j (len_nonneg _)) as Hc.
  assert (Hd : (_sample_size_all_channels s | clamp_index (len (_buffer s)) j)).
  { apply Z.mod_divide in Hb, Ha; try lia.
    assert (Hj : (_sample_size_all_channels s | j))
      by (apply Z.divide_add_r; [assumption | apply Z.divide_factor_l]).
    unfold clamp_index. destruct (Z.ltb_spec j 0).
    - destruct (Z.max_spec 0 (j + len (_buffer s))) as [[_ ->]|[_ ->]];
        [apply Z.divide_add_r; assumption | apply Z.divide_0_r].
    - destruct (Z.min_spec j (len (_buffer s))) as [[_ ->]|[_ ->]]; assumption. }
  constructor; cbn; try assumption; rewrite Hl.
  - lia.
  - apply Z.mod_divide; [lia|]. apply Z.mod_divide in Ha; [|lia].
    destruct (Z.max_spec 0 (clamp_index (len (_buffer s)) j
                            - _current_position_bytes s)) as [[_ ->]|[_ ->]].
    + replace (_current_position_bytes s + (clamp_index (len (_buffer s)) j
               - _current_position_bytes s))
        with (clamp_index (len (_buffer s)) j) by lia.
      assumption.
    + now rewrite Z.add_0_r.
Qed.

(** Closes [wf] on a concrete source. *)
Ltac solve_wf :=
  constructor; vm_compute;
  first [ reflexivity | lia | split; discriminate | tauto ].

Lemma four_samples_init :
  BufferAudioSource.init stereo_frames 16000 2 1 = Ok four_samples.
Proof. reflexivity. Qed.

Lemma four_samples_wf : wf four_samples.
Proof. exact (init_wf _ _ _ _ _ four_samples_init). Qed.

Lemma four_samples_open_wf : wf four_samples_open.
Proof. apply open_wf, four_samples_wf. Qed.

(** ** Reading from a buffer source *)

(** What [read] does on an open source, with the slice written out. *)
Lemma read_open s size :
  wf s -> _is_open s = true -> 0 <= size ->
  let pos := _current_position_bytes s in
  let data :=
    firstn (Z.to_nat (Z.min (pos + _sample_size_all_channels s * size)
                            (len (_buffer s)) - pos))
           (skipn (Z.to_nat pos) (_buffer s)) in
  BufferAudioSource.read s size =
  match data with
  | [] => (Ok None, s)
  | _ :: _ => (Ok (Some data), with_position s (pos + len data))
  end.
Proof.
  intros Hwf Ho Hs. pose proof (wf_frame_pos s Hwf). destruct Hwf.
  unfold BufferAudioSource.read. rewrite Ho. cbn [negb].
  rewrite py_slice_inside by (assumption || nia). reflexivity.
Qed.

Lemma len_firstn_skipn {A} (l : list A) a k :
  0 <= a -> 0 <= k -> a + k <= len l ->
  len (firstn (Z.to_nat k) (skipn (Z.to_nat a) l)) = k.
Proof.
  unfold len. intros. rewrite length_firstn, length_skipn. lia.
Qed.

Lemma len_zero_nil {A} (l : list A) : len l = 0 -> l = [].
Proof. destruct l; [reflexivity | unfold len; cbn; lia]. Qed.

(** C5: on an open source and for a positive [size], [read] returns the
    [size] frames at the current position when that many remain, the
    remaining bytes when fewer remain, and the end marker [None] when the
    position is the end of the buffer; the position moves forward by the
    number of bytes returned. *)
Theorem read_returns_available_frames s size :
  wf s -> _is_open s = true -> 0 < size ->
  let pos := _current_position_bytes s in
  let n := len (_buffer s) in
  let want := size * _sample_size_all_channels s in
  (want <= n - pos ->
   exists data,
     BufferAudioSource.read s size
       = (Ok (Some data), with_position s (pos + len data))
     /\ data = firstn (Z.to_nat want) (skipn (Z.to_nat pos) (_buffer s))
     /\ len data = want)
  /\ (0 < n - pos < want ->
      exists data,
        BufferAudioSource.read s size
          = (Ok (Some data), with_position s (pos + len data))
        /\ data = skipn (Z.to_nat pos) (_buffer s)
        /\ len data = n - pos)
  /\ (pos = n -> BufferAudioSource.read s size = (Ok None, s)).
Proof.
  intros Hwf Ho Hs pos n want.
  pose proof (read_open s size Hwf Ho ltac:(lia)) as Hr. cbv zeta in Hr.
  pose proof (wf_frame_pos s Hwf) as Hf. pose proof (wf_position s Hwf) as Hp.
  fold pos n in Hr, Hp.
  replace (_sample_size_all_channels s * size) with want in Hr
    by (unfold want; lia).
  assert (Hw : 0 < want) by (unfold want; nia).
  split; [|split].
  - intros Hle. rewrite Z.min_l in Hr by lia.
    replace (pos + want - pos) with want in Hr by lia.
    pose proof (len_firstn_skipn (_buffer s) pos want) as Hl.
    fold n in Hl. specialize (Hl ltac:(lia) ltac:(lia) ltac:(lia)).
    destruct (firstn _ _) as [|x d] eqn:Hd;
      [unfold len in Hl; cbn in Hl; lia|].
    exists (x :: d). split; [exact Hr | split; [reflexivity | exact Hl]].
  - intros Hlt. rewrite Z.min_r in Hr by lia.
    pose proof (len_firstn_skipn (_buffer s) pos (n - pos)) as Hl.
    fold n in Hl. specialize (Hl ltac:(lia) ltac:(lia) ltac:(lia)).
    assert (He : firstn (Z.to_nat (n - pos)) (skipn (Z.to_nat pos) (_buffer s))
                 = skipn (Z.to_nat pos) (_buffer s)).
    { apply firstn_all2. rewrite length_skipn. unfold n, len. lia. }
    rewrite He in Hr, Hl.
    destruct (skipn _ _) as [|x d] eqn:Hd;
      [unfold len in Hl; cbn in Hl; lia|].
    exists (x :: d). split; [exact Hr | split; [reflexivity | exact Hl]].
  - intros He. rewrite Z.min_r in Hr by lia.
    replace (n - pos) with 0 in Hr by lia. exact Hr.
Qed.

Lemma read_returns_available_frames_witness :
  (exists data,
     BufferAudioSource.read four_samples_open 3
       = (Ok (Some data), with_position four_samples_open (0 + len data))
     /\ data = [x64; x00; xc8; x00; xce; xff] /\ len data = 6)
  /\ (exists data,
        BufferAudioSource.read (with_position four_samples_open 6) 3
          = (Ok (Some data),
             with_position (with_position four_samples_open 6) (6 + len data))
        /\ data = [x32; x00] /\ len data = 2)
  /\ BufferAudioSource.read (with_position four_samples_open 8) 3
     = (Ok None, with_position four_samples_open 8).
Proof.
  split; [|split].
  - apply (read_returns_available_frames four_samples_open 3);
      [solve_wf | reflexivity | lia | vm_compute; discriminate].
  - apply (read_returns_available_frames (with_position four_samples_open 6) 3);
      [solve_wf | reflexivity | lia | vm_compute; split; reflexivity].
  - apply (read_returns_available_frames (with_position four_samples_open 8) 3);
      [solve_wf | reflexivity | lia | reflexivity].
Defined.

(** C10: on an open source [read(0)] returns the end marker [None] and
    leaves the source, hence its position, as it was, whether or not unread
    data remains. *)
Theorem read_zero_returns_end_marker s :
  _is_open s = true -> BufferAudioSource.read s 0 = (Ok None, s).
Proof.
  intros Ho. unfold BufferAudioSource.read. rewrite Ho. cbn [negb].
  rewrite Z.mul_0_r, Z.add_0_r, py_slice_empty. reflexivity.
Qed.

Lemma read_zero_returns_end_marker_witness :
  _current_position_bytes four_samples_open < len (_buffer four_samples_open)
  /\ BufferAudioSource.read four_samples_open 0 = (Ok None, four_samples_open).
Proof.
  split; [reflexivity | apply (read_zero_returns_end_marker four_samples_open)].
  reflexivity.
Defined.

(** ** Changing the buffer *)

(** C9: for a buffer [b] of whole frames, [append_data] extends the backing
    buffer by [b], so its length grows by [len b], and leaves the position
    where it was; [set_data] makes [b] the backing buffer and puts the
    position at 0. *)
Theorem append_data_and_set_data s b :
  wf s -> len b mod (_sample_width s * _channels s) = 0 ->
  (exists s',
     BufferAudioSource.append_data s b = (Ok tt, s')
     /\ _buffer s' = _buffer s ++ b
     /\ len (_buffer s') = len (_buffer s) + len b
     /\ _current_position_bytes s' = _current_position_bytes s)
  /\ (exists s',
        BufferAudioSource.set_data s b = (Ok tt, s')
        /\ _buffer s' = b
        /\ _current_position_bytes s' = 0).
Proof.
  intros Hwf Hb. pose proof (wf_frame_pos s Hwf) as Hf.
  rewrite (wf_frame s Hwf) in Hf.
  pose proof (check_audio_data_aligned b (_sample_width s) (_channels s)
                ltac:(lia) Hb) as Hc.
  unfold BufferAudioSource.append_data, BufferAudioSource.set_data.
  rewrite Hc. split; eexists; (split; [reflexivity|]); cbn.
  - repeat split. apply len_app.
  - split; reflexivity.
Qed.

Lemma append_data_and_set_data_witness :
  (exists s',
     BufferAudioSource.append_data (with_position four_samples_open 6)
                                   [x01; x02] = (Ok tt, s')
     /\ _buffer s' = stereo_frames ++ [x01; x02]
     /\ len (_buffer s') = 8 + 2
     /\ _current_position_bytes s' = 6)
  /\ (exists s',
        BufferAudioSource.set_data (with_position four_samples_open 6)
                                   [x01; x02] = (Ok tt, s')
        /\ _buffer s' = [x01; x02]
        /\ _current_position_bytes s' = 0).
Proof.
  apply (append_data_and_set_data (with_position four_samples_open 6)
           [x01; x02]); [solve_wf | reflexivity].
Defined.

(** ** Positions *)

Lemma inject_Z_nonzero d : d <> 0 -> ~ (inject_Z d == 0)%Q.
Proof. intros Hd. unfold Qeq. cbn. lia. Qed.

Lemma exact_div_Q n d :
  0 < d -> n mod d = 0 -> (inject_Z n / inject_Z d == inject_Z (n / d))%Q.
Proof.
  intros Hd Hm. apply Z.div_exact in Hm; [|lia].
  rewrite Hm at 1. rewrite inject_Z_mult. field.
  apply inject_Z_nonzero. lia.
Qed.

(** C3, as the code has it: a position beyond the samples of the buffer is
    accepted and clamped to the end of the buffer, so that [get_position]
    is then the number of samples; a negative position raises the built-in
    [ValueError] (not the module's [AudioParameterError]) and leaves the
    source, hence its position, unchanged. *)
Theorem set_position_clamps_or_raises_ValueError s p :
  wf s ->
  (total_samples s < p ->
   exists s' q,
     BufferAudioSource.set_position s p = (Ok tt, s')
     /\ _current_position_bytes s' = len (_buffer s)
     /\ BufferAudioSource.get_position s' = Ok q
     /\ (q == inject_Z (total_samples s))%Q)
  /\ (p < 0 ->
      BufferAudioSource.set_position s p
        = (Raise (ValueError "position must be >= 0"), s)).
Proof.
  intros Hwf. pose proof (wf_frame_pos s Hwf) as Hf.
  pose proof (wf_buffer s Hwf) as Hb. pose proof (len_nonneg (_buffer s)) as Hn.
  unfold BufferAudioSource.set_position, total_samples. split.
  - intros Hp.
    assert (0 <= len (_buffer s) / _sample_size_all_channels s)
      by (apply Z.div_pos; lia).
    destruct (Z.ltb_spec p 0); [lia|].
    assert (Hge : len (_buffer s) <= p * _sample_size_all_channels s).
    { apply Z.div_exact in Hb; [|lia]. nia. }
    destruct (Z.ltb_spec (p * _sample_size_all_channels s) (len (_buffer s)));
      [lia|].
    eexists _, _. split; [reflexivity|]. split; [reflexivity|].
    unfold BufferAudioSource.get_position. cbn.
    destruct (Z.eqb_spec (_sample_size_all_channels s) 0); [lia|].
    split; [reflexivity | apply exact_div_Q; assumption].
  - intros Hp. destruct (Z.ltb_spec p 0); [reflexivity | lia].
Qed.

Lemma set_position_clamps_or_raises_ValueError_witness :
  (exists s' q,
     BufferAudioSource.set_position four_samples 7 = (Ok tt, s')
     /\ _current_position_bytes s' = 8
     /\ BufferAudioSource.get_position s' = Ok q
     /\ (q == inject_Z 4)%Q)
  /\ BufferAudioSource.set_position four_samples (-1)
     = (Raise (ValueError "position must be >= 0"), four_samples).
Proof.
  pose proof (set_position_clamps_or_raises_ValueError four_samples) as H.
  split.
  - apply (H 7); [solve_wf | reflexivity].
  - apply (H (-1)); [solve_wf | reflexivity].
Defined.

(** C3, counterexample to the wording of the spec: on a source of four samples
    [set_position(-1)] does not fail with an [AudioParameterError]. *)
Lemma set_position_negative_not_AudioParameterError :
  ~ (exists msg,
       fst (BufferAudioSource.set_position four_samples (-1))
       = Raise (AudioParameterError msg)).
Proof. intros [msg H]. discriminate H. Qed.

Lemma py_int_nonneg (x : Q) : (0 <= x)%Q -> 0 <= BufferAudioSource.py_int x.
Proof.
  intros Hx. unfold BufferAudioSource.py_int. apply Z.quot_pos; [|lia].
  unfold Qle in Hx. cbn in Hx. lia.
Qed.

(** On a non-negative float [int] is the floor. *)
Lemma py_int_floor (x : Q) :
  (0 <= x)%Q -> BufferAudioSource.py_int x = Qfloor x.
Proof.
  intros Hx. unfold BufferAudioSource.py_int. destruct x as [a b]. cbn.
  unfold Qle in Hx. cbn in Hx. apply Z.quot_div_nonneg; lia.
Qed.

Lemma int_of_float_value x q :
  BufferAudioSource.float_value x = Some q ->
  BufferAudioSource.int_of_float x = Ok (BufferAudioSource.py_int q).
Proof.
  destruct x; cbn; intros [= <-]; reflexivity.
Qed.

(** The clamp of [set_position], in samples. *)
Lemma clamped_position s p :
  wf s -> 0 <= p ->
  (if p * _sample_size_all_channels s <? len (_buffer s)
   then p * _sample_size_all_channels s else len (_buffer s))
  = Z.min p (total_samples s) * _sample_size_all_channels s.
Proof.
  intros Hwf Hp. pose proof (wf_frame_pos s Hwf) as Hf.
  pose proof (wf_buffer s Hwf) as Hb. unfold total_samples.
  apply Z.div_exact in Hb; [|lia].
  set (k := len (_buffer s) / _sample_size_all_channels s) in *.
  destruct (Z.ltb_spec (p * _sample_size_all_channels s) (len (_buffer s))).
  - rewrite Z.min_l by nia. reflexivity.
  - rewrite Z.min_r by nia. lia.
Qed.

(** C2, as the code has it: for every time [t] whose product [sr * t],
    computed in binary64, is a finite non-negative number [q],
    [set_time_position(t)] succeeds and puts the position on sample
    [min(int(q), total samples)]: [sr * t] is truncated, not rounded, to a
    whole sample and clamped to the end of the buffer.
    [get_time_position()] is then the float
    [float(position in bytes) / (frame size * sr)] of that sample. *)
Theorem set_time_position_truncates_and_clamps s t x q :
  wf s ->
  BufferAudioSource.int_times_float (_sampling_rate s) t = Ok x ->
  BufferAudioSource.float_value x = Some q -> (0 <= q)%Q ->
  let sample := Z.min (BufferAudioSource.py_int q) (total_samples s) in
  exists s',
    BufferAudioSource.set_time_position s t = (Ok tt, s')
    /\ _current_position_bytes s' = sample * _sample_size_all_channels s
    /\ BufferAudioSource.get_time_position s'
       = BufferAudioSource.float_over_int
           (sample * _sample_size_all_channels s)
           (_sample_size_all_channels s * _sampling_rate s).
Proof.
  intros Hwf Hx Hq Hnn sample.
  pose proof (py_int_nonneg q Hnn) as Hp.
  unfold BufferAudioSource.set_time_position.
  rewrite Hx, (int_of_float_value x q Hq).
  unfold BufferAudioSource.set_position.
  destruct (Z.ltb_spec (BufferAudioSource.py_int q) 0); [lia|].
  rewrite (clamped_position s _ Hwf Hp). fold sample.
  eexists. split; [reflexivity|]. split; reflexivity.
Qed.

Lemma set_time_position_truncates_and_clamps_witness :
  exists s',
    BufferAudioSource.set_time_position four_samples time_0_0001 = (Ok tt, s')
    /\ _current_position_bytes s' = Z.min 1 4 * 2
    /\ BufferAudioSource.get_time_position s'
       = Ok (S754_finite false 4611686018427388 (-66)).
Proof.
  apply (set_time_position_truncates_and_clamps four_samples time_0_0001
           (S754_finite false 7205759403792794 (-52))
           (BufferAudioSource.finite_value false 7205759403792794 (-52)));
    [solve_wf | reflexivity | reflexivity | vm_compute; discriminate].
Defined.

(** C2, counterexamples to the wording of the spec, on a source of four samples
    at 16 kHz.  For [t = 0.0001] the product is the float 1.6: the position
    is sample 1 ([int(1.6)]) and the time read back is [2.0 / 32000], not
    [round(1.6) / 16000 = 2 / 16000].  For [t = 1.0] the position is clamped
    to the four samples of the buffer and the time read back is
    [8.0 / 32000], not [16000 / 16000]. *)
Lemma set_time_position_not_rounded :
  (exists s' x q r r',
     BufferAudioSource.int_times_float 16000 time_0_0001 = Ok x
     /\ BufferAudioSource.float_value x = Some q
     /\ BufferAudioSource.set_time_position four_samples time_0_0001
        = (Ok tt, s')
     /\ BufferAudioSource.get_time_position s' = Ok r
     /\ BufferAudioSource.float_over_int (py_round q) 16000 = Ok r'
     /\ SFeqb r r' = false)
  /\ (exists s' x q r r',
        BufferAudioSource.int_times_float 16000 time_1_0 = Ok x
        /\ BufferAudioSource.float_value x = Some q
        /\ BufferAudioSource.set_time_position four_samples time_1_0
           = (Ok tt, s')
        /\ BufferAudioSource.get_time_position s' = Ok r
        /\ BufferAudioSource.float_over_int (py_round q) 16000 = Ok r'
        /\ SFeqb r r' = false).
Proof.
  split; eexists _, _, _, _, _;
    (split; [reflexivity|]); (split; [reflexivity|]);
    (split; [reflexivity|]); (split; [vm_compute; reflexivity|]);
    (split; [vm_compute; reflexivity|]); vm_compute; reflexivity.
Qed.

(** ** Whole frames *)

(** A buffer source only returns whole frames. *)
Lemma buffer_read_whole_frames s size data s' :
  wf s -> BufferAudioSource.read s size = (Ok (Some data), s') ->
  len data mod (_sample_width s * _channels s) = 0.
Proof.
  intros Hwf Hr. pose proof (read_wf s size _ s' Hwf Hr) as Hwf'.
  pose proof (wf_frame_pos s Hwf) as Hf. rewrite <- (wf_frame s Hwf).
  pose proof (wf_aligned s Hwf) as Ha. pose proof (wf_aligned s' Hwf') as Ha'.
  revert Hr Ha'. unfold BufferAudioSource.read.
  destruct (_is_open s); cbn [negb]; [|discriminate].
  destruct (py_slice _ _ _) as [|x d]; [discriminate|].
  intros [= <- <-]. cbn. intros Ha'.
  apply Z.mod_divide in Ha, Ha'; try lia. apply Z.mod_divide; [lia|].
  apply (Z.divide_add_cancel_r _ (_current_position_bytes s)); assumption.
Qed.

(** C6, at the failing input: a standard-input source of 2-byte mono samples
    reading two samples from a standard input that ends after three bytes
    returns the three bytes, which is not a whole number of 2-byte frames. *)
Theorem stdin_read_returns_partial_frame :
  StdinAudioSource.init 16000 2 1 = Ok (StdinAudioSource.close stdin_source)
  /\ StdinAudioSource.read stdin_source 2 [x01; x02; x03]
     = (Ok (Some [x01; x02; x03]), [])
  /\ len [x01; x02; x03]
       mod (StdinAudioSource._sample_width stdin_source
            * StdinAudioSource._channels stdin_source) = 1.
Proof. repeat split. Qed.

(** ** The parameter resolver *)

Lemma get_required_long_name d ln sn v :
  d !! ln = Some v -> truthy v = true -> isinstance_int v = true ->
  get_required d (ln, sn) = Ok v.
Proof.
  intros Hl Ht Hi. unfold get_required, py_or, dict_get. rewrite Hl. cbn.
  rewrite Ht. destruct v; try discriminate; reflexivity.
Qed.

Lemma get_required_missing d ln sn :
  d !! ln = None -> d !! sn = None ->
  get_required d (ln, sn) = Raise (AudioParameterError (err_message ln sn PyNone)).
Proof.
  intros Hl Hs. unfold get_required, py_or, dict_get. rewrite Hl, Hs.
  reflexivity.
Qed.

Lemma get_required_not_int d ln sn :
  isinstance_int (py_or (dict_get d ln) (dict_get d sn)) = false ->
  get_required d (ln, sn)
  = Raise (AudioParameterError
             (err_message ln sn (py_or (dict_get d ln) (dict_get d sn)))).
Proof.
  intros Hi. unfold get_required.
  destruct (py_or _ _); try discriminate; reflexivity.
Qed.

Lemma get_required_raises d n e :
  get_required d n = Raise e -> is_AudioParameterError e = true.
Proof.
  destruct n as [ln sn]. unfold get_required.
  destruct (py_or _ _); cbn; intros [= <-]; reflexivity.
Qed.

Lemma get_all_required_raises d names n e :
  In n names -> get_required d n = Raise e ->
  exists e', get_all_required d names = Raise e'
             /\ is_AudioParameterError e' = true.
Proof.
  induction names as [|n0 names IH]; intros Hin He; [destruct Hin|].
  cbn [get_all_required].
  destruct (get_required d n0) as [v|e0] eqn:H0; cbn [bind].
  - destruct Hin as [->|Hin]; [congruence|].
    destruct (IH Hin He) as [e' [-> Hk]]. exists e'. split; [reflexivity | exact Hk].
  - exists e0. split; [reflexivity | exact (get_required_raises d n0 e0 H0)].
Qed.

Lemma _get_audio_parameters_missing d ln sn :
  In (ln, sn) required_names -> d !! ln = None -> d !! sn = None ->
  exists msg, _get_audio_parameters d = Raise (AudioParameterError msg).
Proof.
  intros Hin Hl Hs.
  destruct (get_all_required_raises d required_names (ln, sn) _ Hin
              (get_required_missing d ln sn Hl Hs)) as [e' [He Hk]].
  unfold _get_audio_parameters. rewrite He. cbn [bind].
  destruct e'; try discriminate. eexists; reflexivity.
Qed.

(** C4, at the failing inputs: with [sampling_rate] present and equal to 0
    the value of the alias [sr] is returned; with an empty string under
    [sample_width] the resolver does not fail and returns the value of the
    alias [sw]. *)
Theorem resolver_falls_back_to_alias :
  zero_rate_options !! "sampling_rate" = Some (PyInt 0)
  /\ _get_audio_parameters zero_rate_options
     = Ok [PyInt 16000; PyInt 2; PyInt 1; PyInt 0]
  /\ empty_width_options !! "sample_width" = Some (PyStr EmptyString)
  /\ _get_audio_parameters empty_width_options
     = Ok [PyInt 16000; PyInt 2; PyInt 1; PyInt 0].
Proof. repeat split. Qed.

(** ** Saving *)

Lemma is_raw_format_false f :
  f <> "raw" -> is_raw_format (Some f) = false.
Proof. intros Hf. cbn. now apply String.eqb_neq. Qed.

(** For every format other than raw, a missing parameter stops [to_file]
    before any writer is called. *)
Lemma to_file_missing_parameter open_wb with_pydub save_wave save_with_pydub
    fs data file fmt kwargs f ln sn :
  _guess_audio_format fmt file = Some f -> f <> "raw" ->
  In (ln, sn) required_names -> kwargs !! ln = None -> kwargs !! sn = None ->
  to_file open_wb with_pydub save_wave save_with_pydub fs data file fmt kwargs
  = (Raise (AudioParameterError
              "All audio parameters are required to save formats "), fs).
Proof.
  intros Hg Hf Hin Hl Hs. unfold to_file. rewrite Hg.
  rewrite (is_raw_format_false f Hf).
  destruct (_get_audio_parameters_missing kwargs ln sn Hin Hl Hs) as [msg ->].
  reflexivity.
Qed.

(** C8: when the format is neither raw nor the wave container and one of
    [sampling_rate], [sample_width], [channels] is missing from the options
    (under its long name and under its alias), [to_file] raises an
    [AudioParameterError] and the file system is the one it was given,
    whatever the writers do: nothing was written. *)
Theorem to_file_missing_parameter_writes_nothing
    open_wb with_pydub save_wave save_with_pydub fs data file fmt kwargs f ln sn :
  _guess_audio_format fmt file = Some f ->
  f <> "raw" -> is_wave_format f = false ->
  In (ln, sn) required_names -> kwargs !! ln = None -> kwargs !! sn = None ->
  exists msg,
    to_file open_wb with_pydub save_wave save_with_pydub fs data file fmt kwargs
    = (Raise (AudioParameterError msg), fs).
Proof.
  intros Hg Hf _ Hin Hl Hs. eexists.
  exact (to_file_missing_parameter _ _ _ _ fs data file fmt kwargs f ln sn
           Hg Hf Hin Hl Hs).
Qed.

Lemma to_file_missing_parameter_writes_nothing_witness :
  exists msg,
    to_file flat_directory true refuse_wave refuse_pydub ∅ stereo_frames
            "speech.ogg" None no_channels_options
    = (Raise (AudioParameterError msg), ∅).
Proof.
  apply (to_file_missing_parameter_writes_nothing flat_directory true refuse_wave
           refuse_pydub
           ∅ stereo_frames "speech.ogg" None no_channels_options
           "ogg" "channels" "ch");
    [reflexivity | discriminate | reflexivity
     | right; right; left; reflexivity | reflexivity | reflexivity].
Defined.

Lemma _guess_audio_format_no_extension file :
  drop_first (splitext_ext (lower file)) = EmptyString ->
  _guess_audio_format None file = None.
Proof. intros He. unfold _guess_audio_format. rewrite He. reflexivity. Qed.


Lemma AudioSource_init_mono sr sw :
  sw = 1 \/ sw = 2 \/ sw = 4 -> AudioSource_init sr sw 1 = Ok tt.
Proof. intros [-> | [-> | ->]]; reflexivity. Qed.




(** ** The sample codec *)

Lemma byte_value_range b : 0 <= byte_value b < 256.
Proof.
  unfold byte_value. pose proof (Byte.to_N_bounded b). lia.
Qed.

Lemma byte_value_of z : 0 <= z < 256 -> byte_value (byte_of z) = z.
Proof.
  intros Hz. unfold byte_value, byte_of.
  destruct (Byte.of_N (Z.to_N z)) as [b|] eqn:Hb.
  - apply Byte.to_of_N in Hb. lia.
  - apply Byte.of_N_None_iff in Hb. lia.
Qed.

Lemma length_le_bytes w u : length (le_bytes w u) = w.
Proof. revert u. induction w as [|w IH]; intros u; cbn; [|rewrite IH]; reflexivity. Qed.

Lemma le_unsigned_range bs : 0 <= le_unsigned bs < 256 ^ len bs.
Proof.
  induction bs as [|b bs IH]; [unfold len; cbn; lia|].
  unfold len in *. cbn [le_unsigned length].
  rewrite Nat2Z.inj_succ, Z.pow_succ_r by lia.
  pose proof (byte_value_range b). lia.
Qed.

Lemma le_unsigned_le_bytes w u :
  le_unsigned (le_bytes w u) = u mod 256 ^ Z.of_nat w.
Proof.
  revert u. induction w as [|w IH]; intros u.
  - cbn. now rewrite Z.mod_1_r.
  - cbn [le_bytes le_unsigned].
    rewrite IH, byte_value_of by (apply Z.mod_pos_bound; lia).
    rewrite Nat2Z.inj_succ, Z.pow_succ_r by lia.
    rewrite Z.rem_mul_r by lia. reflexivity.
Qed.

Lemma pow_256 w : 0 <= w -> 256 ^ w = 2 ^ (8 * w).
Proof. intros Hw. rewrite Z.pow_mul_r by lia. reflexivity. Qed.

(** Encoding a value of the signed range and decoding it gives it back. *)
Lemma decode_encode_sample w v :
  0 < w -> - 2 ^ (8 * w - 1) <= v < 2 ^ (8 * w - 1) ->
  decode_sample (encode_sample w v) = v.
Proof.
  intros Hw Hv. unfold decode_sample, encode_sample, len.
  rewrite length_le_bytes, le_unsigned_le_bytes, Z2Nat.id by lia.
  rewrite pow_256 by lia.
  assert (Hp : 2 ^ (8 * w) = 2 * 2 ^ (8 * w - 1)).
  { rewrite <- Z.pow_succ_r by lia. f_equal. lia. }
  assert (Hpos : 0 < 2 ^ (8 * w - 1)) by (apply Z.pow_pos_nonneg; lia).
  rewrite Z.mod_mod by lia.
  destruct (Z.le_gt_cases 0 v) as [Hnn|Hneg].
  - rewrite Z.mod_small by lia.
    destruct (Z.ltb_spec v (2 ^ (8 * w - 1))); lia.
  - assert (Hm : v mod 2 ^ (8 * w) = v + 2 ^ (8 * w)).
    { symmetry. apply (Z.mod_unique_pos _ _ (-1)); lia. }
    rewrite Hm. destruct (Z.ltb_spec (v + 2 ^ (8 * w)) (2 ^ (8 * w - 1))); lia.
Qed.

(** A decoded sample lies in the signed range of its width. *)
Lemma decode_sample_range bs :
  0 < len bs ->
  - 2 ^ (8 * len bs - 1) <= decode_sample bs < 2 ^ (8 * len bs - 1).
Proof.
  intros Hl. unfold decode_sample.
  pose proof (le_unsigned_range bs) as Hu. rewrite pow_256 in Hu by lia.
  assert (Hp : 2 ^ (8 * len bs) = 2 * 2 ^ (8 * len bs - 1)).
  { rewrite <- Z.pow_succ_r by lia. f_equal. lia. }
  destruct (Z.ltb_spec (le_unsigned bs) (2 ^ (8 * len bs - 1))); lia.
Qed.

(** ** Rounding a mean *)

(** [round_div] returns an integer nearest to [s / n]. *)
Lemma round_div_nearest tie s n :
  0 < n -> 2 * Z.abs (n * round_div tie s n - s) <= n.
Proof.
  intros Hn. unfold round_div.
  pose proof (Z.div_mod s n ltac:(lia)) as Hd.
  pose proof (Z.mod_pos_bound s n Hn) as Hr.
  destruct (Z.compare_spec (2 * (s mod n)) n) as [He|Hl|Hg].
  - destruct tie; [destruct (Z.even (s / n))|]; lia.
  - lia.
  - lia.
Qed.

(** ** Buffers made of pieces of one length *)

Lemma length_concat_fixed {X} (f : X -> bytes) (w : nat) (l : list X) :
  (forall x, length (f x) = w) ->
  length (concat (map f l)) = (length l * w)%nat.
Proof.
  intros Hf. induction l as [|x l IH]; [reflexivity|].
  cbn [map concat length]. rewrite length_app, Hf, IH. lia.
Qed.

Lemma piece_of_concat {X} (f : X -> bytes) (w : nat) (l : list X) i x :
  (forall x, length (f x) = w) -> l !! i = Some x ->
  firstn w (skipn (i * w) (concat (map f l))) = f x.
Proof.
  intros Hf. revert i. induction l as [|y l IH]; intros i Hi; [discriminate|].
  cbn [map concat]. destruct i as [|i].
  - cbn in Hi. injection Hi as ->. cbn [Nat.mul skipn].
    apply take_app_length'. now rewrite Hf.
  - cbn in Hi. cbn [Nat.mul].
    rewrite (drop_app_add' (f y) _ w (i * w)) by now rewrite Hf.
    apply IH. exact Hi.
Qed.

Lemma length_indices n : length (indices n) = Z.to_nat n.
Proof. unfold indices. now rewrite length_map, length_seq. Qed.

Lemma lookup_indices n k :
  0 <= k < n -> indices n !! Z.to_nat k = Some k.
Proof.
  intros Hk. unfold indices.
  change (map Z.of_nat (seq 0 (Z.to_nat n))) with (Z.of_nat <$> seq 0 (Z.to_nat n)).
  rewrite list_lookup_fmap.
  assert (Hs : seq 0 (Z.to_nat n) !! Z.to_nat k = Some (Z.to_nat k))
    by (apply lookup_seq; lia).
  rewrite Hs. cbn. f_equal. lia.
Qed.

Lemma piece_of_indices (f : Z -> bytes) w n k :
  (forall x, len (f x) = w) -> 0 <= k < n ->
  py_slice (concat (map f (indices n))) (k * w) ((k + 1) * w) = f k.
Proof.
  intros Hf Hk.
  assert (Hw : 0 <= w) by (rewrite <- (Hf 0); apply len_nonneg).
  assert (Hf' : forall x, length (f x) = Z.to_nat w)
    by (intros x; specialize (Hf x); unfold len in Hf; lia).
  assert (Hlen : len (concat (map f (indices n))) = n * w).
  { unfold len. rewrite (length_concat_fixed f (Z.to_nat w)), length_indices
      by assumption. nia. }
  rewrite py_slice_inside by nia.
  rewrite Hlen, Z.min_l by nia.
  replace (Z.to_nat ((k + 1) * w - k * w)) with (Z.to_nat w) by (f_equal; lia).
  replace (Z.to_nat (k * w)) with (Z.to_nat k * Z.to_nat w)%nat by nia.
  apply piece_of_concat; [assumption | apply lookup_indices; assumption].
Qed.

Lemma len_concat_indices (f : Z -> bytes) w n :
  (forall x, len (f x) = w) -> 0 <= n ->
  len (concat (map f (indices n))) = n * w.
Proof.
  intros Hf Hn.
  assert (Hf' : forall x, length (f x) = Z.to_nat w)
    by (intros x; specialize (Hf x); unfold len in Hf; lia).
  assert (Hw : 0 <= w) by (rewrite <- (Hf 0); apply len_nonneg).
  unfold len. rewrite (length_concat_fixed f (Z.to_nat w)), length_indices
    by assumption. nia.
Qed.

Lemma len_encode_sample w v : 0 <= w -> len (encode_sample w v) = w.
Proof.
  intros Hw. unfold len, encode_sample. rewrite length_le_bytes. lia.
Qed.

(** ** Channel extraction *)

(** The mono buffer that ["mix"] builds from whole frames. *)
Lemma _extract_selected_channel_mix tie data channels sample_width :
  0 < channels * sample_width ->
  len data mod (channels * sample_width) = 0 ->
  _extract_selected_channel tie data channels sample_width (PyStr "mix")
  = Ok (concat (map
          (fun k =>
             encode_sample sample_width
               (round_div tie
                  (sum_Z (map (fun c =>
                            decode_sample
                              (sample_at data channels sample_width k c))
                          (indices channels)))
                  channels))
          (indices (len data / (channels * sample_width))))).
Proof.
  intros Hf Hm. unfold _extract_selected_channel.
  destruct (Z.leb_spec (channels * sample_width) 0); [lia|].
  rewrite Hm. reflexivity.
Qed.

Lemma len_sample_at data channels sample_width k c :
  0 < sample_width -> 0 <= c < channels ->
  len data mod (channels * sample_width) = 0 ->
  0 <= k < len data / (channels * sample_width) ->
  len (sample_at data channels sample_width k c) = sample_width.
Proof.
  intros Hw Hc Hm Hk. unfold sample_at.
  apply Z.div_exact in Hm; [|nia].
  set (n := len data / (channels * sample_width)) in *.
  assert (Hj : (k * channels + c + 1) * sample_width <= len data).
  { rewrite Hm. assert (k * channels + c + 1 <= n * channels) by nia. nia. }
  rewrite py_slice_len by nia.
  unfold clamp_index.
  destruct (Z.ltb_spec ((k * channels + c + 1) * sample_width) 0); [nia|].
  rewrite Z.min_l by lia. nia.
Qed.

(** C1: on an interleaved buffer of whole frames of two 2-byte samples,
    extraction with ["mix"] succeeds; the output has [len data / 2] bytes;
    its [k]-th sample is the mean of the two samples of frame [k] rounded to
    a nearest integer, whichever way ties are broken; and the frames
    (100, 200), (-50, 50) give the samples 150 and 0. *)
Theorem mix_of_two_channels_is_rounded_mean tie data :
  len data mod (2 * 2) = 0 ->
  (exists out,
     _extract_selected_channel tie data 2 2 (PyStr "mix") = Ok out
     /\ len out = len data / 2
     /\ forall k, 0 <= k < len data / (2 * 2) ->
          let l := decode_sample (sample_at data 2 2 k 0) in
          let r := decode_sample (sample_at data 2 2 k 1) in
          let m := decode_sample (sample_at out 1 2 k 0) in
          m = round_div tie (l + r) 2 /\ Z.abs (2 * m - (l + r)) <= 1)
  /\ (map (fun kc => decode_sample (sample_at stereo_frames 2 2 kc.1 kc.2))
          [(0, 0); (0, 1); (1, 0); (1, 1)] = [100; 200; -50; 50]
      /\ _extract_selected_channel tie stereo_frames 2 2 (PyStr "mix")
         = Ok mixed_frames
      /\ map (fun k => decode_sample (sample_at mixed_frames 1 2 k 0)) [0; 1]
         = [150; 0]).
Proof.
  intros Hm. split; [|destruct tie; repeat split].
  rewrite _extract_selected_channel_mix by (assumption || lia).
  set (f := fun k : Z => encode_sample 2 _).
  assert (Hf : forall x, len (f x) = 2)
    by (intros x; apply len_encode_sample; lia).
  pose proof (len_nonneg data) as Hn.
  assert (Hq : 0 <= len data / (2 * 2)) by (apply Z.div_pos; lia).
  exists (concat (map f (indices (len data / (2 * 2))))).
  split; [reflexivity|]. split.
  - rewrite (len_concat_indices f 2) by assumption.
    apply Z.div_exact in Hm; [|lia]. rewrite Hm at 2.
    replace (2 * 2 * (len data / (2 * 2))) with ((len data / (2 * 2) * 2) * 2)
      by lia.
    now rewrite Z.div_mul by lia.
  - intros k Hk l r m.
    assert (Hl : - 2 ^ 15 <= l < 2 ^ 15).
    { pose proof (decode_sample_range (sample_at data 2 2 k 0)) as H.
      rewrite (len_sample_at data 2 2 k 0) in H by (assumption || lia).
      apply H. lia. }
    assert (Hr : - 2 ^ 15 <= r < 2 ^ 15).
    { pose proof (decode_sample_range (sample_at data 2 2 k 1)) as H.
      rewrite (len_sample_at data 2 2 k 1) in H by (assumption || lia).
      apply H. lia. }
    pose proof (round_div_nearest tie (l + r) 2 ltac:(lia)) as Hnear.
    assert (Hrange : - 2 ^ 15 <= round_div tie (l + r) 2 < 2 ^ 15) by lia.
    assert (Hmk : m = round_div tie (l + r) 2).
    { unfold m, sample_at.
      replace ((k * 1 + 0) * 2) with (k * 2) by lia.
      replace ((k * 1 + 0 + 1) * 2) with ((k + 1) * 2) by lia.
      rewrite (piece_of_indices f 2) by assumption.
      unfold f. change (indices 2) with [0; 1]. cbn [map sum_Z fold_right].
      rewrite Z.add_0_r. fold l r.
      apply decode_encode_sample; [lia | exact Hrange]. }
    split; [exact Hmk | rewrite Hmk; lia].
Qed.

Lemma mix_of_two_channels_is_rounded_mean_witness :
  (exists out,
     _extract_selected_channel HalfEven stereo_frames 2 2 (PyStr "mix") = Ok out
     /\ len out = 4
     /\ forall k, 0 <= k < 2 ->
          let l := decode_sample (sample_at stereo_frames 2 2 k 0) in
          let r := decode_sample (sample_at stereo_frames 2 2 k 1) in
          let m := decode_sample (sample_at out 1 2 k 0) in
          m = round_div HalfEven (l + r) 2 /\ Z.abs (2 * m - (l + r)) <= 1)
  /\ (map (fun kc => decode_sample (sample_at stereo_frames 2 2 kc.1 kc.2))
          [(0, 0); (0, 1); (1, 0); (1, 1)] = [100; 200; -50; 50]
      /\ _extract_selected_channel HalfEven stereo_frames 2 2 (PyStr "mix")
         = Ok mixed_frames
      /\ map (fun k => decode_sample (sample_at mixed_frames 1 2 k 0)) [0; 1]
         = [150; 0]).
Proof.
  apply (mix_of_two_channels_is_rounded_mean HalfEven stereo_frames).
  reflexivity.
Defined.

(** The raw load path hands the mixed buffer to the buffer source. *)
Lemma _load_raw_mix tie fs file data sr out :
  fs !! file = Some data ->
  _extract_selected_channel tie data 2 2 (PyStr "mix") = Ok out ->
  len out mod 2 = 0 ->
  exists src,
    _load_raw tie fs file (Some sr) (Some 2) (Some 2) (PyStr "mix") false
    = Ok (Eager src)
    /\ _buffer src = out /\ _channels src = 1.
Proof.
  intros Hfile He Ho. unfold _load_raw. rewrite Hfile.
  cbn [Z.eqb Pos.eqb negb]. rewrite He. cbn [bind].
  unfold BufferAudioSource.init. cbn [AudioSource_init Z.eqb Pos.eqb negb orb bind].
  rewrite (check_audio_data_aligned out 2 1) by (lia || assumption).
  cbn [bind]. eexists. repeat split.
Qed.

(** * Further properties of the code *)

(** ** The buffer check and the constructor *)

(** [check_audio_data] accepts exactly the buffers made of whole frames and
    rejects the others with an [AudioParameterError]. *)
Theorem check_audio_data_accepts_whole_frames data sw ch :
  sw * ch <> 0 ->
  (check_audio_data data sw ch = Ok tt <-> len data mod (sw * ch) = 0)
  /\ (len data mod (sw * ch) <> 0 ->
      exists msg, check_audio_data data sw ch = Raise (AudioParameterError msg)).
Proof.
  intros Hnz. split; [split|].
  - intros H. exact (proj2 (check_audio_data_inv data sw ch tt H)).
  - apply check_audio_data_aligned. exact Hnz.
  - apply check_audio_data_misaligned. exact Hnz.
Qed.

Lemma check_audio_data_accepts_whole_frames_witness :
  (check_audio_data stereo_frames 4 1 = Ok tt <-> len stereo_frames mod (4 * 1) = 0)
  /\ (len stereo_frames mod (4 * 1) <> 0 ->
      exists msg,
        check_audio_data stereo_frames 4 1 = Raise (AudioParameterError msg)).
Proof.
  apply (check_audio_data_accepts_whole_frames stereo_frames 4 1). lia.
Defined.

Lemma AudioSource_init_rejects sr sw ch :
  ~ (sw = 1 \/ sw = 2 \/ sw = 4) \/ ch <> 1 ->
  exists msg, AudioSource_init sr sw ch = Raise (AudioParameterError msg).
Proof.
  intros H. unfold AudioSource_init.
  destruct (Z.eqb_spec sw 1), (Z.eqb_spec sw 2), (Z.eqb_spec sw 4);
    cbn [negb orb]; try (eexists; reflexivity);
    (destruct (Z.eqb_spec ch 1); cbn [negb]; [|eexists; reflexivity]);
    exfalso; lia.
Qed.

Lemma init_outcome data sr sw ch :
  ((sw = 1 \/ sw = 2 \/ sw = 4) /\ ch = 1 /\ len data mod sw = 0 ->
   BufferAudioSource.init data sr sw ch
   = Ok {| _sampling_rate := sr; _sample_width := sw; _channels := 1;
           _buffer := data; _sample_size_all_channels := sw;
           _current_position_bytes := 0; _is_open := false |})
  /\ (~ ((sw = 1 \/ sw = 2 \/ sw = 4) /\ ch = 1 /\ len data mod sw = 0) ->
      exists msg,
        BufferAudioSource.init data sr sw ch = Raise (AudioParameterError msg)).
Proof.
  split.
  - intros (Hw & -> & Hm). unfold BufferAudioSource.init.
    rewrite (AudioSource_init_mono sr sw Hw). cbn [bind].
    rewrite (check_audio_data_aligned data sw 1)
      by (rewrite ?Z.mul_1_r; lia || assumption).
    cbn [bind]. rewrite Z.mul_1_r. reflexivity.
  - intros Hn. unfold BufferAudioSource.init.
    destruct (Z.eq_dec ch 1) as [->|Hc].
    + destruct (Z.eq_dec sw 1) as [Hw|Hw1];
        [|destruct (Z.eq_dec sw 2) as [Hw|Hw2];
          [|destruct (Z.eq_dec sw 4) as [Hw|Hw4]]].
      1-3: rewrite (AudioSource_init_mono sr sw ltac:(lia)); cbn [bind];
        destruct (check_audio_data_misaligned data sw 1) as [msg ->];
        [lia | rewrite Z.mul_1_r; intros Hm; apply Hn; repeat split; lia
         | eexists; reflexivity].
      destruct (AudioSource_init_rejects sr sw 1) as [msg ->];
        [left; lia | eexists; reflexivity].
    + destruct (AudioSource_init_rejects sr sw ch) as [msg ->];
        [right; exact Hc | eexists; reflexivity].
Qed.

(** The constructor returns a source exactly when the sample width is 1, 2
    or 4, there is one channel and the buffer holds whole samples; the
    source is then closed, at position 0, over that buffer.  In every other
    case it raises an [AudioParameterError]. *)
Theorem init_succeeds_iff_valid data sr sw ch :
  ((sw = 1 \/ sw = 2 \/ sw = 4) /\ ch = 1 /\ len data mod sw = 0 ->
   BufferAudioSource.init data sr sw ch
   = Ok {| _sampling_rate := sr; _sample_width := sw; _channels := 1;
           _buffer := data; _sample_size_all_channels := sw;
           _current_position_bytes := 0; _is_open := false |})
  /\ (~ ((sw = 1 \/ sw = 2 \/ sw = 4) /\ ch = 1 /\ len data mod sw = 0) ->
      exists msg,
        BufferAudioSource.init data sr sw ch = Raise (AudioParameterError msg)).
Proof. exact (init_outcome data sr sw ch). Qed.

(** ** The invariant along any sequence of calls *)

Lemma set_time_position_wf s t r s' :
  wf s -> BufferAudioSource.set_time_position s t = (r, s') -> wf s'.
Proof.
  intros Hwf. unfold BufferAudioSource.set_time_position.
  destruct (BufferAudioSource.int_times_float _ t) as [x|];
    [|intros [= <- <-]; exact Hwf].
  destruct (BufferAudioSource.int_of_float x) as [p|];
    [|intros [= <- <-]; exact Hwf].
  apply set_position_wf. exact Hwf.
Qed.

Lemma call_wf s m : wf s -> wf (call s m).
Proof.
  intros Hwf. destruct m; cbn [call].
  - apply open_wf, Hwf.
  - destruct (BufferAudioSource.close s) eqn:E. eapply close_wf; eauto.
  - destruct (BufferAudioSource.read s size) eqn:E. eapply read_wf; eauto.
  - destruct (BufferAudioSource.set_data s data_buffer) eqn:E.
    eapply set_data_wf; eauto.
  - destruct (BufferAudioSource.append_data s data_buffer) eqn:E.
    eapply append_data_wf; eauto.
  - destruct (BufferAudioSource.rewind s) eqn:E. eapply set_position_wf; eauto.
  - destruct (BufferAudioSource.set_position s position) eqn:E.
    eapply set_position_wf; eauto.
  - destruct (BufferAudioSource.set_time_position s time_position) eqn:E.
    eapply set_time_position_wf; eauto.
Qed.

(** Whatever methods are called on a constructed source, with whatever
    arguments and whether they return or raise, the position stays on a
    frame boundary between 0 and the end of the buffer, the buffer stays a
    whole number of frames, and the audio parameters are those given to the
    constructor. *)
Theorem constructed_source_keeps_invariant data sr sw ch s0 ms :
  BufferAudioSource.init data sr sw ch = Ok s0 ->
  let s := calls s0 ms in
  0 <= _current_position_bytes s <= len (_buffer s)
  /\ _current_position_bytes s mod (_sample_width s * _channels s) = 0
  /\ len (_buffer s) mod (_sample_width s * _channels s) = 0
  /\ _sampling_rate s = sr /\ _sample_width s = sw /\ _channels s = ch.
Proof.
  intros Hi. apply init_wf in Hi as Hwf.
  assert (Hp : _sampling_rate s0 = sr /\ _sample_width s0 = sw
               /\ _channels s0 = ch).
  { unfold BufferAudioSource.init in Hi.
    destruct (AudioSource_init sr sw ch); cbn [bind] in Hi; [|discriminate].
    destruct (check_audio_data data sw ch); cbn [bind] in Hi; [|discriminate].
    injection Hi as <-. repeat split. }
  clear Hi. revert s0 Hwf Hp. unfold calls.
  induction ms as [|m ms IH]; intros s0 Hwf Hp; cbn [fold_left].
  - destruct Hwf as [? ? Hf ? ? ?]. rewrite <- Hf. tauto.
  - apply IH; [apply call_wf, Hwf|].
    destruct Hp as (H1 & H2 & H3). rewrite <- H1, <- H2, <- H3.
    destruct m; cbn [call]; unfold BufferAudioSource.close,
      BufferAudioSource.rewind, BufferAudioSource.set_time_position,
      BufferAudioSource.set_position, BufferAudioSource.read,
      BufferAudioSource.set_data, BufferAudioSource.append_data;
      repeat match goal with
             | |- context [if ?b then _ else _] => destruct b
             | |- context [match ?x with _ => _ end] => destruct x
             end; repeat split.
Qed.

Lemma constructed_source_keeps_invariant_witness :
  let s := calls four_samples
             [Open; Read 3; AppendData [x01; x02]; SetPosition 9;
              Read (-1); SetTimePosition time_0_0001; Close] in
  0 <= _current_position_bytes s <= len (_buffer s)
  /\ _current_position_bytes s mod (_sample_width s * _channels s) = 0
  /\ len (_buffer s) mod (_sample_width s * _channels s) = 0
  /\ _sampling_rate s = 16000 /\ _sample_width s = 2 /\ _channels s = 1.
Proof.
  apply (constructed_source_keeps_invariant stereo_frames 16000 2 1).
  reflexivity.
Defined.

Lemma init_succeeds_iff_valid_witness :
  BufferAudioSource.init stereo_frames 16000 2 1 = Ok four_samples
  /\ exists msg,
       BufferAudioSource.init [x01; x02; x03] 16000 2 1
       = Raise (AudioParameterError msg).
Proof.
  split.
  - apply (proj1 (init_succeeds_iff_valid stereo_frames 16000 2 1)).
    repeat split; [right; left; reflexivity].
  - apply (proj2 (init_succeeds_iff_valid [x01; x02; x03] 16000 2 1)).
    intros (_ & _ & H). discriminate H.
Defined.

(** ** Rejected buffers, closing and reopening *)

(** [set_data] and [append_data] refuse a buffer that is not made of whole
    frames with an [AudioParameterError], and the source keeps its buffer
    and its position. *)
Theorem misaligned_data_is_rejected s b :
  wf s -> len b mod (_sample_width s * _channels s) <> 0 ->
  (exists msg,
     BufferAudioSource.set_data s b = (Raise (AudioParameterError msg), s))
  /\ (exists msg,
        BufferAudioSource.append_data s b
        = (Raise (AudioParameterError msg), s)).
Proof.
  intros Hwf Hb. pose proof (wf_frame_pos s Hwf) as Hf.
  rewrite (wf_frame s Hwf) in Hf.
  destruct (check_audio_data_misaligned b (_sample_width s) (_channels s)
              ltac:(lia) Hb) as [msg Hc].
  unfold BufferAudioSource.set_data, BufferAudioSource.append_data.
  rewrite Hc. split; exists msg; reflexivity.
Qed.

Lemma misaligned_data_is_rejected_witness :
  (exists msg,
     BufferAudioSource.set_data four_samples [x01; x02; x03]
     = (Raise (AudioParameterError msg), four_samples))
  /\ (exists msg,
        BufferAudioSource.append_data four_samples [x01; x02; x03]
        = (Raise (AudioParameterError msg), four_samples)).
Proof.
  apply (misaligned_data_is_rejected four_samples [x01; x02; x03]);
    [solve_wf | discriminate].
Defined.

Lemma rewind_position s :
  BufferAudioSource.rewind s = (Ok tt, with_position s 0).
Proof.
  unfold BufferAudioSource.rewind, BufferAudioSource.set_position.
  cbn [Z.ltb Z.compare]. rewrite Z.mul_0_l.
  pose proof (len_nonneg (_buffer s)).
  destruct (Z.ltb_spec 0 (len (_buffer s))); [reflexivity|].
  replace (len (_buffer s)) with 0 by lia. reflexivity.
Qed.

(** [close] never fails: it leaves the source closed, at position 0, over
    the same buffer, and any [read] on the closed source raises an
    [AudioIOError] without changing it. *)
Theorem close_rewinds_and_blocks_reads s size :
  exists s',
    BufferAudioSource.close s = (Ok tt, s')
    /\ _is_open s' = false
    /\ _current_position_bytes s' = 0
    /\ _buffer s' = _buffer s
    /\ exists msg,
         BufferAudioSource.read s' size = (Raise (AudioIOError msg), s').
Proof.
  unfold BufferAudioSource.close. rewrite rewind_position.
  eexists. split; [reflexivity|]. repeat split.
  eexists. reflexivity.
Qed.

(** After [close] and [open], whatever was read before, [read(size)] with a
    positive [size] on a non-empty buffer returns the first [size] frames of
    the buffer (all of it when it is shorter). *)
Theorem reopened_source_reads_from_start s size :
  wf s -> 0 < size -> _buffer s <> [] ->
  let s1 := BufferAudioSource.open (snd (BufferAudioSource.close s)) in
  let want := size * _sample_size_all_channels s in
  BufferAudioSource.read s1 size
  = (Ok (Some (firstn (Z.to_nat want) (_buffer s))),
     with_position s1 (Z.min want (len (_buffer s)))).
Proof.
  intros Hwf Hs Hb s1 want. pose proof (wf_frame_pos s Hwf) as Hf.
  assert (Hwf1 : wf s1).
  { unfold s1. apply open_wf.
    destruct (BufferAudioSource.close s) eqn:E. eapply close_wf; eauto. }
  pose proof (read_open s1 size Hwf1 eq_refl ltac:(lia)) as Hr.
  cbv zeta in Hr. rewrite Hr. clear Hr.
  unfold s1, BufferAudioSource.close. rewrite rewind_position.
  cbn [snd BufferAudioSource.open with_is_open with_position
       _current_position_bytes _buffer _sample_size_all_channels].
  rewrite Z.add_0_l, Z.sub_0_r. change (Z.to_nat 0) with O. rewrite skipn_O.
  replace (_sample_size_all_channels s * size) with want by (unfold want; lia).
  assert (Hw : 0 < want) by (unfold want; nia).
  assert (Hn : 0 < len (_buffer s))
    by (destruct (_buffer s); [contradiction | unfold len; cbn; lia]).
  assert (He : firstn (Z.to_nat (Z.min want (len (_buffer s)))) (_buffer s)
               = firstn (Z.to_nat want) (_buffer s)).
  { destruct (Z.le_ge_cases want (len (_buffer s))).
    - now rewrite Z.min_l by lia.
    - rewrite Z.min_r by lia. unfold len in *.
      rewrite !firstn_all2 by lia. reflexivity. }
  rewrite He.
  assert (Hl : len (firstn (Z.to_nat want) (_buffer s))
               = Z.min want (len (_buffer s))).
  { unfold len. rewrite length_firstn. lia. }
  destruct (firstn (Z.to_nat want) (_buffer s)) as [|x d] eqn:Hd;
    [unfold len in *; cbn in Hl; lia|].
  rewrite Hl, Z.add_0_l. reflexivity.
Qed.

Lemma reopened_source_reads_from_start_witness :
  BufferAudioSource.read
    (BufferAudioSource.open
       (snd (BufferAudioSource.close (with_position four_samples_open 6)))) 3
  = (Ok (Some (firstn (Z.to_nat (3 * 2)) stereo_frames)),
     with_position
       (BufferAudioSource.open
          (snd (BufferAudioSource.close (with_position four_samples_open 6))))
       (Z.min (3 * 2) 8)).
Proof.
  apply (reopened_source_reads_from_start (with_position four_samples_open 6) 3);
    [solve_wf | lia | discriminate].
Defined.

(** ** Reads in sequence, and reads of a negative size *)

Lemma len_take_drop {A} (l : list A) a k :
  0 <= a ->
  len (firstn (Z.to_nat k) (skipn (Z.to_nat a) l))
  = Z.max 0 (Z.min k (len l - a)).
Proof.
  intros Ha. unfold len. rewrite length_firstn, length_skipn. lia.
Qed.

(** Two reads that both return data return, one after the other, what a
    single read of the two sizes together returns, and leave the source in
    the same state. *)
Theorem consecutive_reads_compose s a b d1 s1 d2 s2 :
  wf s -> 0 <= a -> 0 <= b ->
  BufferAudioSource.read s a = (Ok (Some d1), s1) ->
  BufferAudioSource.read s1 b = (Ok (Some d2), s2) ->
  BufferAudioSource.read s (a + b) = (Ok (Some (d1 ++ d2)), s2).
Proof.
  intros Hwf Ha Hb H1 H2. pose proof (wf_frame_pos s Hwf) as Hf.
  pose proof (wf_position s Hwf) as Hp.
  assert (Ho : _is_open s = true).
  { revert H1. unfold BufferAudioSource.read.
    destruct (_is_open s); [reflexivity | discriminate]. }
  pose proof (read_wf s a _ s1 Hwf H1) as Hwf1.
  rewrite (read_open s a Hwf Ho Ha) in H1.
  rewrite (read_open s (a + b) Hwf Ho ltac:(lia)).
  set (pos := _current_position_bytes s) in *.
  set (n := len (_buffer s)) in *.
  set (fs := _sample_size_all_channels s) in *.
  destruct (firstn (Z.to_nat (Z.min (pos + fs * a) n - pos))
                   (skipn (Z.to_nat pos) (_buffer s))) as [|x1 t1] eqn:E1;
    [discriminate|].
  injection H1 as <- <-.
  assert (Hl1 : len (x1 :: t1) = Z.min (pos + fs * a) n - pos).
  { rewrite <- E1, len_take_drop by lia. fold n. lia. }
  assert (Ho1 : _is_open (with_position s (pos + len (x1 :: t1))) = true)
    by exact Ho.
  rewrite (read_open _ b Hwf1 Ho1 Hb) in H2.
  cbn [with_position _current_position_bytes _buffer
       _sample_size_all_channels] in H2.
  fold n fs in H2. rewrite Hl1 in H2.
  destruct (firstn _ _) as [|x2 t2] eqn:E2 in H2; [discriminate|].
  injection H2 as <- <-.
  assert (Hl2 : len (x2 :: t2)
                = Z.min (pos + (Z.min (pos + fs * a) n - pos) + fs * b) n
                  - (pos + (Z.min (pos + fs * a) n - pos))).
  { rewrite <- E2, len_take_drop by lia. fold n. nia. }
  assert (Hfull : pos + fs * a < n).
  { assert (0 < len (x2 :: t2)) by (unfold len; cbn [length]; lia). lia. }
  assert (Hm : Z.min (pos + fs * a) n = pos + fs * a) by lia.
  rewrite Hm in Hl1, Hl2, E1, E2.
  replace (pos + (pos + fs * a - pos)) with (pos + fs * a) in Hl2, E2 by lia.
  replace (pos + fs * a - pos) with (fs * a) in Hl1, E1 by lia.
  assert (Hcat : firstn (Z.to_nat (Z.min (pos + fs * (a + b)) n - pos))
                        (skipn (Z.to_nat pos) (_buffer s))
                 = (x1 :: t1) ++ (x2 :: t2)).
  { rewrite <- E1, <- E2.
    replace (Z.to_nat (pos + fs * a)) with (Z.to_nat (fs * a) + Z.to_nat pos)%nat
      by nia.
    rewrite <- skipn_skipn.
    change firstn with (@take byte). change skipn with (@drop byte).
    rewrite take_take_drop. f_equal. nia. }
  rewrite Hcat. cbn [app].
  f_equal. unfold with_position; cbn. f_equal.
  change (x1 :: t1 ++ x2 :: t2) with ((x1 :: t1) ++ (x2 :: t2)).
  rewrite len_app. lia.
Qed.

Lemma consecutive_reads_compose_witness :
  BufferAudioSource.read four_samples_open (1 + 2)
  = (Ok (Some ([x64; x00] ++ [xc8; x00; xce; xff])),
     with_position four_samples_open 6).
Proof.
  apply (consecutive_reads_compose four_samples_open 1 2 [x64; x00]
           (with_position four_samples_open 2));
    [solve_wf | lia | lia | reflexivity | reflexivity].
Defined.

(** A negative [size] is not refused: on an open source at position 0,
    [read(size)] returns the buffer without its last [-size] frames, and the
    end marker when the buffer has no more frames than that. *)
Theorem read_negative_size_drops_last_frames s size :
  wf s -> _is_open s = true -> _current_position_bytes s = 0 -> size < 0 ->
  let keep := len (_buffer s) + size * _sample_size_all_channels s in
  (0 < keep ->
   BufferAudioSource.read s size
   = (Ok (Some (firstn (Z.to_nat keep) (_buffer s))), with_position s keep))
  /\ (keep <= 0 -> BufferAudioSource.read s size = (Ok None, s)).
Proof.
  intros Hwf Ho Hp Hs keep. pose proof (wf_frame_pos s Hwf) as Hf.
  pose proof (len_nonneg (_buffer s)) as Hn.
  unfold BufferAudioSource.read. rewrite Ho, Hp. cbn [negb].
  rewrite Z.add_0_l. unfold py_slice. fold (len (_buffer s)).
  assert (Ha : clamp_index (len (_buffer s)) 0 = 0)
    by (unfold clamp_index; cbn; lia).
  assert (Hb : clamp_index (len (_buffer s)) (_sample_size_all_channels s * size)
               = Z.max 0 keep).
  { unfold clamp_index, keep.
    destruct (Z.ltb_spec (_sample_size_all_channels s * size) 0); [|nia].
    f_equal. lia. }
  rewrite Ha, Hb, Z.sub_0_r. change (Z.to_nat 0) with O. rewrite skipn_O.
  split; intros Hk.
  - rewrite Z.max_r by lia.
    assert (Hl : len (firstn (Z.to_nat keep) (_buffer s)) = keep).
    { unfold len. rewrite length_firstn. unfold keep, len in *. nia. }
    destruct (firstn (Z.to_nat keep) (_buffer s)) as [|x d] eqn:Hd;
      [unfold len in Hl; cbn in Hl; lia|].
    rewrite Hl, Z.add_0_l. reflexivity.
  - rewrite Z.max_l by lia. reflexivity.
Qed.

Lemma read_negative_size_drops_last_frames_witness :
  BufferAudioSource.read four_samples_open (-1)
  = (Ok (Some [x64; x00; xc8; x00; xce; xff]), with_position four_samples_open 6)
  /\ BufferAudioSource.read four_samples_open (-4) = (Ok None, four_samples_open).
Proof.
  split.
  - apply (read_negative_size_drops_last_frames four_samples_open (-1));
      [solve_wf | reflexivity | reflexivity | lia | reflexivity].
  - apply (read_negative_size_drops_last_frames four_samples_open (-4));
      [solve_wf | reflexivity | reflexivity | lia | discriminate].
Defined.

(** ** Seeking *)

(** A position within the buffer is taken as it is: after
    [set_position(p)] the byte position is [p] frames, [get_position()] is
    [p], and neither the buffer nor the open flag has changed. *)
Theorem set_position_then_get_position s p :
  wf s -> 0 <= p <= total_samples s ->
  exists s' q,
    BufferAudioSource.set_position s p = (Ok tt, s')
    /\ _current_position_bytes s' = p * _sample_size_all_channels s
    /\ _buffer s' = _buffer s /\ _is_open s' = _is_open s
    /\ BufferAudioSource.get_position s' = Ok q
    /\ (q == inject_Z p)%Q.
Proof.
  intros Hwf Hp. pose proof (wf_frame_pos s Hwf) as Hf.
  pose proof (wf_buffer s Hwf) as Hb. unfold total_samples in Hp.
  apply Z.div_exact in Hb; [|lia].
  assert (Hle : p * _sample_size_all_channels s <= len (_buffer s)) by nia.
  unfold BufferAudioSource.set_position.
  destruct (Z.ltb_spec p 0); [lia|].
  eexists _, _. split; [reflexivity|]. cbn [with_position
    _current_position_bytes _buffer _is_open].
  split.
  - destruct (Z.ltb_spec (p * _sample_size_all_channels s) (len (_buffer s)));
      lia.
  - split; [reflexivity|]. split; [reflexivity|].
    unfold BufferAudioSource.get_position. cbn [with_position
      _current_position_bytes _sample_size_all_channels].
    destruct (Z.eqb_spec (_sample_size_all_channels s) 0); [lia|].
    split; [reflexivity|].
    replace (if p * _sample_size_all_channels s <? len (_buffer s)
             then p * _sample_size_all_channels s else len (_buffer s))
      with (p * _sample_size_all_channels s)
      by (destruct (Z.ltb_spec (p * _sample_size_all_channels s)
                               (len (_buffer s))); lia).
    rewrite inject_Z_mult. field. apply inject_Z_nonzero. lia.
Qed.

Lemma set_position_then_get_position_witness :
  exists s' q,
    BufferAudioSource.set_position four_samples_open 3 = (Ok tt, s')
    /\ _current_position_bytes s' = 3 * 2
    /\ _buffer s' = stereo_frames /\ _is_open s' = true
    /\ BufferAudioSource.get_position s' = Ok q
    /\ (q == inject_Z 3)%Q.
Proof.
  apply (set_position_then_get_position four_samples_open 3);
    [solve_wf | vm_compute; split; discriminate].
Defined.

Lemma py_int_small_negative (x : Q) :
  (- (1) < x)%Q -> (x < 0)%Q -> BufferAudioSource.py_int x = 0.
Proof.
  intros Hl Hu. unfold BufferAudioSource.py_int. destruct x as [a b].
  unfold Qlt in *. cbn in *. apply Z.quot_small_iff; lia.
Qed.

Lemma py_int_below_minus_one (x : Q) :
  (x <= - (1))%Q -> BufferAudioSource.py_int x < 0.
Proof.
  intros Hl. unfold BufferAudioSource.py_int. destruct x as [a b].
  unfold Qle in *. cbn in *.
  assert (H : a ÷ Z.pos b <= (- Z.pos b) ÷ Z.pos b)
    by (apply Z.quot_le_mono; lia).
  rewrite Z.quot_opp_l, Z.quot_same in H by lia. lia.
Qed.

(** Negative times: when the product [sr * t], computed in binary64, is a
    finite number [q], [set_time_position(t)] raises [ValueError] and leaves
    the source as it is for [q <= -1]; for [-1 < q < 0] the time is
    accepted, because [int] truncates towards zero, and the position becomes
    0. *)
Theorem set_time_position_negative_time s t x q :
  BufferAudioSource.int_times_float (_sampling_rate s) t = Ok x ->
  BufferAudioSource.float_value x = Some q ->
  ((q <= - (1))%Q ->
   exists msg,
     BufferAudioSource.set_time_position s t = (Raise (ValueError msg), s))
  /\ ((- (1) < q)%Q -> (q < 0)%Q ->
      BufferAudioSource.set_time_position s t = (Ok tt, with_position s 0)).
Proof.
  intros Hx Hq. unfold BufferAudioSource.set_time_position.
  rewrite Hx, (int_of_float_value x q Hq). split.
  - intros Hle. apply py_int_below_minus_one in Hle.
    unfold BufferAudioSource.set_position.
    destruct (Z.ltb_spec (BufferAudioSource.py_int q) 0); [|lia].
    eexists. reflexivity.
  - intros Hl Hu. rewrite (py_int_small_negative _ Hl Hu).
    exact (rewind_position s).
Qed.

Lemma set_time_position_negative_time_witness :
  (exists msg,
     BufferAudioSource.set_time_position (with_position four_samples_open 4)
                                         time_minus_0_001
     = (Raise (ValueError msg), with_position four_samples_open 4))
  /\ BufferAudioSource.set_time_position (with_position four_samples_open 4)
                                         time_minus_0_00005
     = (Ok tt, with_position (with_position four_samples_open 4) 0).
Proof.
  split.
  - apply (set_time_position_negative_time
             (with_position four_samples_open 4) time_minus_0_001
             (S754_finite true 4503599627370496 (-48))
             (BufferAudioSource.finite_value true 4503599627370496 (-48)));
      [reflexivity | reflexivity | vm_compute; discriminate].
  - apply (set_time_position_negative_time
             (with_position four_samples_open 4) time_minus_0_00005
             (S754_finite true 7205759403792794 (-53))
             (BufferAudioSource.finite_value true 7205759403792794 (-53)));
      [reflexivity | reflexivity | reflexivity | reflexivity].
Defined.

(** ** Reading from the standard input *)

Lemma stdin_read_outcome self size stdin r rest :
  StdinAudioSource._is_open self = true ->
  StdinAudioSource.read self size stdin = (r, rest) ->
  let request :=
    size * StdinAudioSource._sample_width self
    * StdinAudioSource._channels self in
  (request < -1 -> (exists msg, r = Raise (ValueError msg)) /\ rest = stdin)
  /\ (-1 <= request ->
      exists data,
        r = Ok (match data with [] => None | _ :: _ => Some data end)
        /\ data ++ rest = stdin
        /\ (0 <= request -> len data = Z.min request (len stdin))
        /\ (request = -1 -> data = stdin)).
Proof.
  intros Ho Hr request. unfold StdinAudioSource.read in Hr.
  rewrite Ho in Hr. cbn [negb] in Hr. fold request in Hr.
  unfold stdin_buffer_read in Hr.
  destruct (Z.ltb_spec request (-1)) as [Hlow|Hge].
  - injection Hr as <- <-. split; [|lia]. intros _.
    split; [eexists; reflexivity | reflexivity].
  - split; [lia|]. intros _.
    set (data := if request =? -1 then stdin
                 else firstn (Z.to_nat request) stdin).
    set (left := if request =? -1 then []
                 else skipn (Z.to_nat request) stdin).
    assert (Hpair : (if request =? -1
                     then Ok (stdin, @nil byte)
                     else Ok (firstn (Z.to_nat request) stdin,
                              skipn (Z.to_nat request) stdin))
                    = Ok (data, left))
      by (unfold data, left; destruct (request =? -1); reflexivity).
    rewrite Hpair in Hr. exists data.
    assert (Hrest : left = rest /\
              r = Ok (match data with [] => None | _ :: _ => Some data end)).
    { destruct data as [|x d].
      - cbn in Hr. injection Hr as <- <-. split; reflexivity.
      - assert (Hl : (len (x :: d) <? 1) = false)
          by (apply Z.ltb_ge; unfold len; cbn [length]; lia).
        rewrite Hl in Hr. injection Hr as <- <-. split; reflexivity. }
    destruct Hrest as [<- ->]. split; [reflexivity|].
    unfold data, left. destruct (Z.eqb_spec request (-1)) as [Heq|Hne].
    + split; [apply app_nil_r|]. split; [lia | reflexivity].
    + split; [apply firstn_skipn|]. split; [|lia].
      intros _. unfold len. rewrite length_firstn. lia.
Qed.

(** [read] on an open standard-input source loses nothing.  For a request
    [size * sample_width * channels] of at least [-1], the bytes it returns
    followed by the bytes it leaves are the standard input it was given; it
    returns the requested number of bytes, or all that is left when that is
    less, and everything for [-1]; the end marker stands for no byte at all.
    For a request below [-1] it raises the [ValueError] of the underlying
    read and the standard input is untouched. *)
Theorem stdin_read_consumes_what_it_returns self size stdin r rest :
  StdinAudioSource._is_open self = true ->
  StdinAudioSource.read self size stdin = (r, rest) ->
  let request :=
    size * StdinAudioSource._sample_width self
    * StdinAudioSource._channels self in
  (request < -1 -> (exists msg, r = Raise (ValueError msg)) /\ rest = stdin)
  /\ (-1 <= request ->
      exists data,
        r = Ok (match data with [] => None | _ :: _ => Some data end)
        /\ data ++ rest = stdin
        /\ (0 <= request -> len data = Z.min request (len stdin))
        /\ (request = -1 -> data = stdin)).
Proof. exact (stdin_read_outcome self size stdin r rest). Qed.

Lemma stdin_read_consumes_what_it_returns_witness :
  (exists data,
     Ok (Some [x01; x02])
     = Ok (match data with [] => None | _ :: _ => Some data end)
     /\ data ++ [x03] = [x01; x02; x03]
     /\ (0 <= 1 * 2 * 1 -> len data = Z.min (1 * 2 * 1) (len [x01; x02; x03]))
     /\ (1 * 2 * 1 = -1 -> data = [x01; x02; x03]))
  /\ ((exists msg,
         (StdinAudioSource.read stdin_source (-1) [x01; x02; x03]).1
         = Raise (ValueError msg))
      /\ (StdinAudioSource.read stdin_source (-1) [x01; x02; x03]).2
         = [x01; x02; x03]).
Proof.
  split.
  - apply (stdin_read_consumes_what_it_returns stdin_source 1 [x01; x02; x03]);
      [reflexivity | reflexivity | vm_compute; discriminate].
  - apply (stdin_read_consumes_what_it_returns stdin_source (-1)
             [x01; x02; x03]);
      [reflexivity | apply surjective_pairing | vm_compute; reflexivity].
Defined.

(** As long as the standard input holds whole frames, an open
    standard-input source returns whole frames and leaves whole frames. *)
Theorem stdin_read_whole_frames_of_whole_input self size stdin data rest :
  StdinAudioSource._is_open self = true ->
  let frame :=
    StdinAudioSource._sample_width self * StdinAudioSource._channels self in
  0 < frame -> len stdin mod frame = 0 ->
  StdinAudioSource.read self size stdin = (Ok (Some data), rest) ->
  len data mod frame = 0 /\ len rest mod frame = 0.
Proof.
  intros Ho frame Hf Hm Hr.
  destruct (stdin_read_outcome self size stdin _ rest Ho Hr) as [Hlow Hok].
  destruct (Z.lt_ge_cases
              (size * StdinAudioSource._sample_width self
               * StdinAudioSource._channels self) (-1)) as [Hlt|Hge];
    [destruct (Hlow Hlt) as [[msg Hmsg] _]; discriminate Hmsg|].
  destruct (Hok Hge) as (d & Hd & Hsplit & Hpos & Hall).
  assert (d = data) as -> by (destruct d; [discriminate | now injection Hd]).
  assert (Hlen : len stdin = len data + len rest)
    by (rewrite <- Hsplit; apply len_app).
  assert (Hdata : len data mod frame = 0).
  { destruct (Z.lt_ge_cases
                (size * StdinAudioSource._sample_width self
                 * StdinAudioSource._channels self) 0) as [Hneg|Hnn].
    - rewrite (Hall ltac:(lia)). exact Hm.
    - rewrite (Hpos Hnn).
      destruct (Z.min_spec
                  (size * StdinAudioSource._sample_width self
                   * StdinAudioSource._channels self) (len stdin))
        as [[_ ->]|[_ ->]]; [|exact Hm].
      replace (size * StdinAudioSource._sample_width self
               * StdinAudioSource._channels self) with (size * frame)
        by (unfold frame; lia).
      apply Z.mod_mul. lia. }
  split; [exact Hdata|].
  apply Z.mod_divide in Hm, Hdata; try lia. apply Z.mod_divide; [lia|].
  apply (Z.divide_add_cancel_r _ (len data)); [assumption|].
  rewrite <- Hlen. assumption.
Qed.

Lemma stdin_read_whole_frames_of_whole_input_witness :
  len [x01; x02] mod (2 * 1) = 0 /\ len [x03; x04] mod (2 * 1) = 0.
Proof.
  apply (stdin_read_whole_frames_of_whole_input stdin_source 1
           [x01; x02; x03; x04] [x01; x02] [x03; x04]);
    [reflexivity | reflexivity | reflexivity | reflexivity].
Defined.

(** For a positive [size], an open standard-input source returns the end
    marker exactly when the standard input is exhausted. *)
Theorem stdin_read_end_marker_iff_exhausted self size stdin :
  StdinAudioSource._is_open self = true ->
  0 < size ->
  0 < StdinAudioSource._sample_width self * StdinAudioSource._channels self ->
  (StdinAudioSource.read self size stdin).1 = Ok None <-> stdin = [].
Proof.
  intros Ho Hs Hf.
  destruct (StdinAudioSource.read self size stdin) as [r rest] eqn:Hr.
  assert (Hq : 0 < size * StdinAudioSource._sample_width self
                   * StdinAudioSource._channels self) by nia.
  destruct (stdin_read_outcome self size stdin r rest Ho Hr) as [_ Hok].
  destruct (Hok ltac:(lia)) as (d & -> & Hsplit & Hpos & _).
  specialize (Hpos ltac:(lia)). cbn [fst]. split.
  - intros Hn. destruct d; [|discriminate].
    apply len_zero_nil. unfold len in Hpos at 1. cbn [length] in Hpos.
    pose proof (len_nonneg stdin). lia.
  - intros ->. destruct d; [reflexivity|].
    unfold len in Hpos. cbn [length] in Hpos. lia.
Qed.

Lemma stdin_read_end_marker_iff_exhausted_witness :
  (StdinAudioSource.read stdin_source 2 []).1 = Ok None <-> @nil byte = [].
Proof.
  apply (stdin_read_end_marker_iff_exhausted stdin_source 2 []);
    [reflexivity | lia | reflexivity].
Defined.

(** ** Guessing the format from the file name *)

Lemma lower_char_dot c : lower_char c = "."%char <-> c = "."%char.
Proof.
  destruct c as [[] [] [] [] [] [] [] []]; vm_compute; split; intros H;
    solve [reflexivity | discriminate H].
Qed.

Lemma lower_char_slash c : lower_char c = "/"%char <-> c = "/"%char.
Proof.
  destruct c as [[] [] [] [] [] [] [] []]; vm_compute; split; intros H;
    solve [reflexivity | discriminate H].
Qed.

Lemma rfind_from_app c l1 l2 i acc :
  rfind_from c (l1 ++ l2) i acc
  = rfind_from c l2 (i + len l1) (rfind_from c l1 i acc).
Proof.
  revert i acc. induction l1 as [|x l1 IH]; intros i acc.
  - cbn. unfold len. cbn. now rewrite Z.add_0_r.
  - cbn [app rfind_from]. rewrite IH. f_equal. unfold len. cbn [length]. lia.
Qed.

Lemma rfind_from_absent c l i acc :
  forallb (fun x => negb (Ascii.eqb x c)) l = true ->
  rfind_from c l i acc = acc.
Proof.
  revert i acc. induction l as [|x l IH]; intros i acc H; [reflexivity|].
  cbn in H. apply andb_prop in H as [Hx Hl]. cbn [rfind_from].
  destruct (Ascii.eqb x c); [discriminate|]. now apply IH.
Qed.

Lemma rfind_from_lower_bound c l i acc :
  acc <= i -> acc <= rfind_from c l i acc.
Proof.
  revert i acc. induction l as [|x l IH]; intros i acc H; [cbn; lia|].
  cbn [rfind_from]. destruct (Ascii.eqb x c).
  - etransitivity; [exact H|]. apply IH. lia.
  - apply IH. lia.
Qed.

Lemma rfind_trailing c l :
  List.last l c = c -> rfind c l = len l - 1.
Proof.
  intros Hl. unfold rfind. destruct l as [|x l']; [reflexivity|].
  destruct (exists_last (l := x :: l') ltac:(discriminate)) as (d & y & E).
  rewrite E in *. rewrite last_last in Hl. subst y.
  rewrite rfind_from_app. cbn [rfind_from]. rewrite Ascii.eqb_refl.
  rewrite len_app. unfold len at 3. cbn [length]. lia.
Qed.

Lemma py_slice_middle {A} (a b c : list A) :
  py_slice (a ++ b ++ c) (len a) (len a + len b) = b.
Proof.
  pose proof (len_nonneg a). pose proof (len_nonneg b).
  pose proof (len_nonneg c).
  rewrite py_slice_inside by (rewrite ?len_app; lia).
  rewrite !len_app, Z.min_l by lia.
  replace (len a + len b - len a) with (len b) by lia.
  unfold len. rewrite !Nat2Z.id.
  change firstn with (@take A). change skipn with (@drop A).
  rewrite drop_app_length. apply take_app_length.
Qed.

Lemma skipn_two_prefixes {A} (a b c : list A) :
  skipn (Z.to_nat (len a + len b)) (a ++ b ++ c) = c.
Proof.
  unfold len. rewrite <- Nat2Z.inj_add, Nat2Z.id, app_assoc, <- length_app.
  change skipn with (@drop A). apply drop_app_length.
Qed.

Lemma no_char_lower_dot l :
  no_char "." l = true -> no_char "." (map lower_char l) = true.
Proof.
  unfold no_char. induction l as [|x l IH]; [reflexivity|].
  cbn. intros H. apply andb_prop in H as [Hx Hl]. rewrite (IH Hl), andb_true_r.
  destruct (Ascii.eqb_spec x "."); [discriminate|].
  destruct (Ascii.eqb_spec (lower_char x) "."); [|reflexivity].
  apply (proj1 (lower_char_dot x)) in e. contradiction.
Qed.

Lemma no_char_lower_slash l :
  no_char "/" l = true -> no_char "/" (map lower_char l) = true.
Proof.
  unfold no_char. induction l as [|x l IH]; [reflexivity|].
  cbn. intros H. apply andb_prop in H as [Hx Hl]. rewrite (IH Hl), andb_true_r.
  destruct (Ascii.eqb_spec x "/"); [discriminate|].
  destruct (Ascii.eqb_spec (lower_char x) "/"); [|reflexivity].
  apply (proj1 (lower_char_slash x)) in e. contradiction.
Qed.

Lemma some_other_char_lower l :
  existsb (fun x => negb (Ascii.eqb x ".")) l = true ->
  existsb (fun x => negb (Ascii.eqb x ".")) (map lower_char l) = true.
Proof.
  induction l as [|x l IH]; [discriminate|].
  cbn. intros H. apply orb_prop in H as [Hx|Hl].
  - destruct (Ascii.eqb_spec x "."); [discriminate|].
    destruct (Ascii.eqb_spec (lower_char x) "."); [|reflexivity].
    apply (proj1 (lower_char_dot x)) in e. contradiction.
  - rewrite (IH Hl). apply orb_true_r.
Qed.

Lemma last_lower_slash l :
  List.last l "/"%char = "/"%char ->
  List.last (map lower_char l) "/"%char = "/"%char.
Proof.
  intros H. destruct l as [|x l']; [reflexivity|].
  destruct (exists_last (l := x :: l') ltac:(discriminate)) as (d & y & E).
  rewrite E in *. rewrite last_last in H. subst y.
  rewrite map_app. cbn [map]. rewrite last_last. reflexivity.
Qed.

(** The extension of [pre ++ stem ++ "." ++ ext], where [pre] is empty or
    ends with a separator, [stem] has no separator and is not made of dots
    only, and [ext] has neither dot nor separator. *)
Lemma splitext_ext_of_parts pre stem ext :
  List.last pre "/"%char = "/"%char ->
  no_char "/" stem = true ->
  existsb (fun x => negb (Ascii.eqb x ".")) stem = true ->
  no_char "." ext = true -> no_char "/" ext = true ->
  splitext_ext (string_of_list_ascii (pre ++ stem ++ "."%char :: ext))
  = string_of_list_ascii ("."%char :: ext).
Proof.
  intros Hpre Hstem Hsome Hdot Hslash. unfold splitext_ext.
  rewrite list_ascii_of_string_of_list_ascii.
  assert (Hsep : rfind "/" (pre ++ stem ++ "."%char :: ext) = len pre - 1).
  { unfold rfind. rewrite rfind_from_app.
    rewrite (rfind_from_absent "/" (stem ++ "."%char :: ext)).
    - fold (rfind "/" pre). now apply rfind_trailing.
    - unfold no_char in *. rewrite forallb_app, Hstem. cbn. exact Hslash. }
  assert (Hd : rfind "." (pre ++ stem ++ "."%char :: ext) = len pre + len stem).
  { unfold rfind. rewrite !rfind_from_app. cbn [rfind_from].
    rewrite Ascii.eqb_refl. rewrite (rfind_from_absent "." ext) by exact Hdot.
    lia. }
  rewrite Hsep, Hd.
  pose proof (len_nonneg stem).
  destruct (Z.ltb_spec (len pre - 1) (len pre + len stem)); [|lia].
  replace (len pre - 1 + 1) with (len pre) by lia.
  rewrite (py_slice_middle pre stem ("."%char :: ext)), Hsome.
  cbn [andb]. now rewrite skipn_two_prefixes.
Qed.

(** A file name [stem.ext], possibly behind directories, has the format
    [ext] in lower case: [stem] holds no separator and at least one character
    other than a dot, [ext] is not empty and holds neither dot nor
    separator. *)
Theorem _guess_audio_format_of_extension pre stem ext :
  List.last pre "/"%char = "/"%char ->
  no_char "/" stem = true ->
  existsb (fun x => negb (Ascii.eqb x ".")) stem = true ->
  ext <> [] -> no_char "." ext = true -> no_char "/" ext = true ->
  _guess_audio_format None
    (string_of_list_ascii (pre ++ stem ++ "."%char :: ext))
  = Some (lower (string_of_list_ascii ext)).
Proof.
  intros Hpre Hstem Hsome Hne Hdot Hslash. unfold _guess_audio_format, lower.
  rewrite !list_ascii_of_string_of_list_ascii, !map_app. cbn [map].
  change (lower_char ".") with "."%char.
  rewrite splitext_ext_of_parts;
    auto using last_lower_slash, no_char_lower_slash, no_char_lower_dot,
               some_other_char_lower.
  cbn [string_of_list_ascii drop_first].
  destruct ext as [|x ext']; [contradiction|]. reflexivity.
Qed.

Lemma _guess_audio_format_of_extension_witness :
  _guess_audio_format None
    (string_of_list_ascii
       (list_ascii_of_string "rec.d/" ++ list_ascii_of_string "Take.1"
          ++ "."%char :: [ascii_of_nat 201; "X"%char; "t"%char]))
  = Some (string_of_list_ascii [ascii_of_nat 233; "x"%char; "t"%char]).
Proof.
  apply (_guess_audio_format_of_extension
           (list_ascii_of_string "rec.d/") (list_ascii_of_string "Take.1")
           [ascii_of_nat 201; "X"%char; "t"%char]);
    [reflexivity | reflexivity | reflexivity | discriminate
     | reflexivity | reflexivity].
Defined.

(** A file name without any dot has no guessed format. *)
Theorem _guess_audio_format_without_dot file :
  no_char "." (list_ascii_of_string file) = true ->
  _guess_audio_format None file = None.
Proof.
  intros Hdot. apply _guess_audio_format_no_extension.
  unfold splitext_ext, lower. rewrite list_ascii_of_string_of_list_ascii.
  set (l := map lower_char (list_ascii_of_string file)).
  assert (Hd : rfind "." l = -1).
  { unfold rfind. apply rfind_from_absent. now apply no_char_lower_dot. }
  assert (Hs : -1 <= rfind "/" l)
    by (unfold rfind; apply rfind_from_lower_bound; lia).
  rewrite Hd. destruct (Z.ltb_spec (rfind "/" l) (-1)); [lia|]. reflexivity.
Qed.

Lemma _guess_audio_format_without_dot_witness :
  _guess_audio_format None "out/Speech" = None.
Proof.
  apply (_guess_audio_format_without_dot "out/Speech"). reflexivity.
Defined.

(** ** The parameter resolver, continued *)

Lemma _normalize_use_channel_cases uc :
  match _normalize_use_channel uc with
  | Ok v => is_mix v || isinstance_int v = true
  | Raise e =>
      is_AudioParameterError e = true
      /\ uc <> PyNone /\ isinstance_int uc = false
      /\ uc <> PyStr "mix" /\ uc <> PyStr "left" /\ uc <> PyStr "right"
  end.
Proof.
  destruct uc as [| b | z | s | t x]; cbn; try reflexivity.
  - destruct (String.eqb_spec s "mix") as [->|Hm]; [reflexivity|]. cbn.
    destruct (String.eqb_spec s "left") as [->|Hl]; [reflexivity|].
    destruct (String.eqb_spec s "right") as [->|Hr]; [reflexivity|].
    repeat split; congruence.
  - repeat split; discriminate.
Qed.

(** [_normalize_use_channel] returns an integer or ["mix"] and nothing
    else; it only fails with an [AudioParameterError], and only on a value
    that is neither [None], an integer, ["mix"], ["left"] nor ["right"]. *)
Theorem _normalize_use_channel_outcome uc :
  match _normalize_use_channel uc with
  | Ok v => is_mix v || isinstance_int v = true
  | Raise e =>
      is_AudioParameterError e = true
      /\ uc <> PyNone /\ isinstance_int uc = false
      /\ uc <> PyStr "mix" /\ uc <> PyStr "left" /\ uc <> PyStr "right"
  end.
Proof. exact (_normalize_use_channel_cases uc). Qed.

Lemma get_required_ok d ln sn v :
  get_required d (ln, sn) = Ok v ->
  v = py_or (dict_get d ln) (dict_get d sn) /\ isinstance_int v = true.
Proof.
  unfold get_required. destruct (py_or _ _); cbn; intros [= <-];
    split; reflexivity.
Qed.

Lemma _get_audio_parameters_ok d ps :
  _get_audio_parameters d = Ok ps ->
  exists sr sw ch uc,
    ps = [sr; sw; ch; uc]
    /\ sr = py_or (dict_get d "sampling_rate") (dict_get d "sr")
    /\ sw = py_or (dict_get d "sample_width") (dict_get d "sw")
    /\ ch = py_or (dict_get d "channels") (dict_get d "ch")
    /\ isinstance_int sr = true /\ isinstance_int sw = true
    /\ isinstance_int ch = true
    /\ is_mix uc || isinstance_int uc = true.
Proof.
  unfold _get_audio_parameters, required_names. cbn [get_all_required].
  destruct (get_required d ("sampling_rate", "sr")) as [sr|] eqn:E1;
    cbn [bind]; [|discriminate].
  destruct (get_required d ("sample_width", "sw")) as [sw|] eqn:E2;
    cbn [bind]; [|discriminate].
  destruct (get_required d ("channels", "ch")) as [ch|] eqn:E3;
    cbn [bind]; [|discriminate].
  set (u := match d !! "use_channel" with Some v => v | None => _ end).
  pose proof (_normalize_use_channel_cases u) as Hu.
  destruct (_normalize_use_channel u) as [uc|]; cbn [bind]; [|discriminate].
  intros [= <-]. apply get_required_ok in E1 as [? ?], E2 as [? ?], E3 as [? ?].
  exists sr, sw, ch, uc. cbn [app]. repeat split; assumption.
Qed.

Lemma _get_audio_parameters_raises d e :
  _get_audio_parameters d = Raise e -> is_AudioParameterError e = true.
Proof.
  unfold _get_audio_parameters, required_names. cbn [get_all_required].
  destruct (get_required d ("sampling_rate", "sr")) as [sr|e1] eqn:E1;
    cbn [bind]; [|intros [= <-]; exact (get_required_raises _ _ _ E1)].
  destruct (get_required d ("sample_width", "sw")) as [sw|e2] eqn:E2;
    cbn [bind]; [|intros [= <-]; exact (get_required_raises _ _ _ E2)].
  destruct (get_required d ("channels", "ch")) as [ch|e3] eqn:E3;
    cbn [bind]; [|intros [= <-]; exact (get_required_raises _ _ _ E3)].
  set (u := match d !! "use_channel" with Some v => v | None => _ end).
  pose proof (_normalize_use_channel_cases u) as Hu.
  destruct (_normalize_use_channel u) as [uc|e4]; cbn [bind]; [discriminate|].
  intros [= <-]. apply Hu.
Qed.

(** Whatever the options, [_get_audio_parameters] either returns exactly
    four values, of which the first three are integers (the values of
    [long or alias]) and the fourth is an integer or ["mix"], or raises an
    [AudioParameterError]; it raises nothing else. *)
Theorem _get_audio_parameters_outcome d :
  match _get_audio_parameters d with
  | Ok ps =>
      exists sr sw ch uc,
        ps = [sr; sw; ch; uc]
        /\ sr = py_or (dict_get d "sampling_rate") (dict_get d "sr")
        /\ sw = py_or (dict_get d "sample_width") (dict_get d "sw")
        /\ ch = py_or (dict_get d "channels") (dict_get d "ch")
        /\ isinstance_int sr = true /\ isinstance_int sw = true
        /\ isinstance_int ch = true
        /\ is_mix uc || isinstance_int uc = true
  | Raise e => is_AudioParameterError e = true
  end.
Proof.
  destruct (_get_audio_parameters d) eqn:E.
  - exact (_get_audio_parameters_ok d a E).
  - exact (_get_audio_parameters_raises d e E).
Qed.

(** Long names and aliases: when the three long names hold non-zero
    integers their values are returned whatever the aliases hold; when the
    three long names are absent the integers under the aliases are
    returned.  Without [use_channel] and [uc] the channel is 0. *)
Theorem _get_audio_parameters_long_names_then_aliases d a b c :
  d !! "use_channel" = None -> d !! "uc" = None ->
  (a <> 0 -> b <> 0 -> c <> 0 ->
   d !! "sampling_rate" = Some (PyInt a) ->
   d !! "sample_width" = Some (PyInt b) ->
   d !! "channels" = Some (PyInt c) ->
   _get_audio_parameters d = Ok [PyInt a; PyInt b; PyInt c; PyInt 0])
  /\ (d !! "sampling_rate" = None -> d !! "sample_width" = None ->
      d !! "channels" = None ->
      d !! "sr" = Some (PyInt a) -> d !! "sw" = Some (PyInt b) ->
      d !! "ch" = Some (PyInt c) ->
      _get_audio_parameters d = Ok [PyInt a; PyInt b; PyInt c; PyInt 0]).
Proof.
  intros Hu1 Hu2. unfold _get_audio_parameters, required_names.
  cbn [get_all_required]. rewrite Hu1, Hu2. split.
  - intros Ha Hb Hc H1 H2 H3.
    assert (T : forall z, z <> 0 -> truthy (PyInt z) = true)
      by (intros z Hz; cbn; apply negb_true_iff, Z.eqb_neq; exact Hz).
    rewrite (get_required_long_name d _ "sr" _ H1 (T a Ha) eq_refl),
      (get_required_long_name d _ "sw" _ H2 (T b Hb) eq_refl),
      (get_required_long_name d _ "ch" _ H3 (T c Hc) eq_refl).
    reflexivity.
  - intros H1 H2 H3 H4 H5 H6. unfold get_required, py_or, dict_get.
    rewrite H1, H2, H3, H4, H5, H6. reflexivity.
Qed.

Lemma _get_audio_parameters_long_names_then_aliases_witness :
  _get_audio_parameters long_and_alias_options
  = Ok [PyInt 8000; PyInt 2; PyInt 1; PyInt 0]
  /\ _get_audio_parameters alias_only_options
     = Ok [PyInt 16000; PyInt 2; PyInt 1; PyInt 0].
Proof.
  split.
  - destruct (_get_audio_parameters_long_names_then_aliases
                long_and_alias_options 8000 2 1) as [H _];
      [reflexivity | reflexivity |].
    apply H; solve [lia | reflexivity].
  - destruct (_get_audio_parameters_long_names_then_aliases
                alias_only_options 16000 2 1) as [_ H];
      [reflexivity | reflexivity |].
    apply H; reflexivity.
Defined.

(** ** Saving, continued *)




(** Without pydub, a format that is neither raw nor wave is never written:
    whatever the options, [to_file] raises an [AudioParameterError] (options
    incomplete) or an [AudioIOError] (options complete), no writer is called
    and the file system is unchanged. *)
Theorem to_file_without_pydub_writes_nothing open_wb save_wave save_with_pydub
    fs data file fmt kwargs f :
  _guess_audio_format fmt file = Some f ->
  f <> "raw" -> is_wave_format f = false ->
  exists msg,
    (to_file open_wb false save_wave save_with_pydub fs data file fmt kwargs
     = (Raise (AudioParameterError msg), fs)
     /\ exists e, _get_audio_parameters kwargs = Raise e)
    \/ (to_file open_wb false save_wave save_with_pydub fs data file fmt kwargs
        = (Raise (AudioIOError msg), fs)
        /\ exists ps, _get_audio_parameters kwargs = Ok ps).
Proof.
  intros Hg Hf Hw. unfold to_file. rewrite Hg, (is_raw_format_false f Hf).
  destruct (_get_audio_parameters kwargs) as [ps|e] eqn:E.
  - destruct (_get_audio_parameters_ok kwargs ps E)
      as (sr & sw & ch & uc & -> & _).
    change (default EmptyString (Some f)) with f. rewrite Hw. eexists. right.
    split; [reflexivity | eexists; reflexivity].
  - rewrite (_get_audio_parameters_raises kwargs e E). eexists. left.
    split; [reflexivity | eexists; reflexivity].
Qed.

Lemma to_file_without_pydub_writes_nothing_witness :
  exists msg,
    (to_file flat_directory false refuse_wave refuse_pydub ∅ stereo_frames "speech.ogg" None
             alias_only_options
     = (Raise (AudioParameterError msg), ∅)
     /\ exists e, _get_audio_parameters alias_only_options = Raise e)
    \/ (to_file flat_directory false refuse_wave refuse_pydub ∅ stereo_frames "speech.ogg"
                None alias_only_options
        = (Raise (AudioIOError msg), ∅)
        /\ exists ps, _get_audio_parameters alias_only_options = Ok ps).
Proof.
  apply (to_file_without_pydub_writes_nothing flat_directory refuse_wave
           refuse_pydub ∅
           stereo_frames "speech.ogg" None alias_only_options "ogg");
    [reflexivity | discriminate | reflexivity].
Defined.

(** ** Loading raw audio *)

(** [_load_raw] checks its parameters before it looks at the file: with one
    of them missing it raises an [AudioParameterError] whatever the file
    system holds; with all of them, in the eager mode, a file that does not
    exist gives a [FileNotFoundError]. *)
Theorem _load_raw_errors tie fs file sr sw ch uc large_file :
  (sr = None \/ sw = None \/ ch = None ->
   exists msg,
     _load_raw tie fs file sr sw ch uc large_file
     = Raise (AudioParameterError msg))
  /\ (forall r w c,
        sr = Some r -> sw = Some w -> ch = Some c ->
        large_file = false -> fs !! file = None ->
        _load_raw tie fs file sr sw ch uc large_file
        = Raise (FileNotFoundError file)).
Proof.
  split.
  - intros H. unfold _load_raw.
    destruct sr, sw, ch; try (eexists; reflexivity).
    destruct H as [H|[H|H]]; discriminate H.
  - intros r w c -> -> -> -> Hf. unfold _load_raw. rewrite Hf. reflexivity.
Qed.

Lemma _load_raw_errors_witness :
  (exists msg,
     _load_raw HalfEven ∅ "speech" (Some 16000) None (Some 1) (PyInt 0) false
     = Raise (AudioParameterError msg))
  /\ _load_raw HalfEven ∅ "speech" (Some 16000) (Some 2) (Some 1) (PyInt 0)
               false
     = Raise (FileNotFoundError "speech").
Proof.
  pose proof (_load_raw_errors HalfEven ∅ "speech") as H.
  split.
  - apply (H (Some 16000) None (Some 1) (PyInt 0) false).
    right; left; reflexivity.
  - apply (proj2 (H (Some 16000) (Some 2) (Some 1) (PyInt 0) false)
             16000 2 1); reflexivity.
Defined.

(** Loading a one-channel raw file: when the sample width is 1, 2 or 4 and
    the file holds whole samples, [_load_raw] returns a closed buffer source
    at position 0 over the bytes of the file, whatever [use_channel] is;
    otherwise it raises an [AudioParameterError]. *)
Theorem _load_raw_mono tie fs file data sr sw uc :
  fs !! file = Some data ->
  ((sw = 1 \/ sw = 2 \/ sw = 4) /\ len data mod sw = 0 ->
   _load_raw tie fs file (Some sr) (Some sw) (Some 1) uc false
   = Ok (Eager {| _sampling_rate := sr; _sample_width := sw; _channels := 1;
                  _buffer := data; _sample_size_all_channels := sw;
                  _current_position_bytes := 0; _is_open := false |}))
  /\ (~ ((sw = 1 \/ sw = 2 \/ sw = 4) /\ len data mod sw = 0) ->
      exists msg,
        _load_raw tie fs file (Some sr) (Some sw) (Some 1) uc false
        = Raise (AudioParameterError msg)).
Proof.
  intros Hf. unfold _load_raw. rewrite Hf. cbn [Z.eqb Pos.eqb negb bind].
  destruct (init_outcome data sr sw 1) as [Hok Herr]. split.
  - intros [Hw Hm]. rewrite Hok by tauto. reflexivity.
  - intros Hn. destruct Herr as [msg ->]; [tauto|]. eexists. reflexivity.
Qed.

Lemma _load_raw_mono_witness :
  _load_raw HalfUp {["speech" := stereo_frames]} "speech" (Some 16000) (Some 2)
            (Some 1) (PyStr "mix") false
  = Ok (Eager four_samples)
  /\ exists msg,
       _load_raw HalfUp {["speech" := stereo_frames]} "speech" (Some 16000)
                 (Some 3) (Some 1) (PyStr "mix") false
       = Raise (AudioParameterError msg).
Proof.
  split.
  - destruct (_load_raw_mono HalfUp {["speech" := stereo_frames]} "speech"
                stereo_frames 16000 2 (PyStr "mix")) as [H _];
      [reflexivity|].
    apply H. split; [right; left; reflexivity | reflexivity].
  - destruct (_load_raw_mono HalfUp {["speech" := stereo_frames]} "speech"
                stereo_frames 16000 3 (PyStr "mix")) as [_ H];
      [reflexivity|].
    apply H. intros [[E|[E|E]] _]; discriminate E.
Defined.

(** ** Chunks for playback *)

Lemma chunk_size_of_quot sr sw ch :
  chunk_size_of sr sw ch = (sr * sw * ch) ÷ 10.
Proof.
  unfold chunk_size_of, BufferAudioSource.py_int. cbn.
  now rewrite Z.mul_1_r.
Qed.

Lemma chunk_loop_done fuel data cs start :
  len data <= start -> chunk_loop fuel data cs start = Some [].
Proof.
  intros H. destruct fuel; cbn [chunk_loop];
    destruct (Z.ltb_spec start (len data)); (lia || reflexivity).
Qed.

Lemma chunk_loop_enough_fuel fuel data cs start :
  0 < cs -> 0 <= start -> (Z.to_nat (len data - start) <= fuel)%nat ->
  exists chunks,
    chunk_loop fuel data cs start = Some chunks
    /\ concat chunks = skipn (Z.to_nat start) data
    /\ chunks_of_size cs chunks.
Proof.
  intros Hcs. revert start.
  induction fuel as [|fuel IH]; intros start Hs Hfuel.
  - exists []. rewrite chunk_loop_done by lia.
    split; [reflexivity|]. split; [|exact I].
    symmetry. apply skipn_all2. unfold len in *. lia.
  - destruct (Z.lt_ge_cases start (len data)) as [Hlt|Hge].
    + destruct (IH (start + cs) ltac:(lia) ltac:(lia))
        as (chunks & Hc & Hcat & Hsz).
      cbn [chunk_loop]. destruct (Z.ltb_spec start (len data)); [|lia].
      rewrite Hc. eexists. split; [reflexivity|].
      assert (Hlen : len (py_slice data start (start + cs))
                     = Z.min cs (len data - start)).
      { rewrite py_slice_len by lia. unfold clamp_index.
        destruct (Z.ltb_spec (start + cs) 0); lia. }
      split.
      * cbn [concat]. rewrite Hcat, py_slice_inside by lia.
        set (l := skipn (Z.to_nat start) data).
        assert (Hl : Z.of_nat (length l) = len data - start)
          by (unfold l, len; rewrite length_skipn; unfold len in *; lia).
        replace (skipn (Z.to_nat (start + cs)) data)
          with (skipn (Z.to_nat cs) l)
          by (unfold l; rewrite skipn_skipn; f_equal; lia).
        destruct (Z.le_gt_cases (start + cs) (len data)).
        -- rewrite Z.min_l by lia.
           replace (start + cs - start) with cs by lia.
           apply firstn_skipn.
        -- rewrite Z.min_r by lia.
           rewrite firstn_all2, skipn_all2 by lia. apply app_nil_r.
      * cbn [chunks_of_size]. split; [|exact Hsz].
        destruct chunks as [|c rest]; [lia|].
        destruct (Z.le_gt_cases (len data) (start + cs)) as [Hend|Hmore];
          [|lia].
        rewrite chunk_loop_done in Hc by lia. discriminate Hc.
    + exists []. rewrite chunk_loop_done by lia.
      split; [reflexivity|]. split; [|exact I].
      symmetry. apply skipn_all2. unfold len in *. lia.
Qed.

Lemma chunk_loop_stuck fuel data cs start :
  cs <= 0 -> start < len data -> chunk_loop fuel data cs start = None.
Proof.
  intros Hcs. revert start. induction fuel as [|fuel IH]; intros start Hs;
    cbn [chunk_loop]; destruct (Z.ltb_spec start (len data)); try lia;
    [reflexivity|].
  rewrite IH by lia. reflexivity.
Qed.

(** When [sampling_rate * sample_width * channels] is at least 10, the
    generator finishes after at most [len(data)] iterations; the chunks it
    yields, put end to end, are the data; every chunk has the chunk size,
    except that the last one may be shorter, and none is empty. *)
Theorem _chunk_data_splits_data fuel sr sw ch data :
  10 <= sr * sw * ch -> (length data <= fuel)%nat ->
  exists chunks,
    _chunk_data fuel sr sw ch data = Some chunks
    /\ concat chunks = data
    /\ chunks_of_size (chunk_size_of sr sw ch) chunks.
Proof.
  intros Hp Hfuel. unfold _chunk_data.
  assert (Hcs : 0 < chunk_size_of sr sw ch).
  { rewrite chunk_size_of_quot, Z.quot_div_nonneg by lia.
    apply Z.div_str_pos. lia. }
  destruct (chunk_loop_enough_fuel fuel data (chunk_size_of sr sw ch) 0 Hcs
              ltac:(lia)) as (chunks & Hc & Hcat & Hsz).
  - unfold len. lia.
  - exists chunks. split; [exact Hc|]. split; [exact Hcat | exact Hsz].
Qed.

Lemma _chunk_data_splits_data_witness :
  exists chunks,
    _chunk_data 8 20 2 1 stereo_frames = Some chunks
    /\ concat chunks = stereo_frames
    /\ chunks_of_size (chunk_size_of 20 2 1) chunks.
Proof.
  apply (_chunk_data_splits_data 8 20 2 1 stereo_frames);
    [lia | cbn; lia].
Defined.

(** When [sampling_rate * sample_width * channels] is below 10 the chunk
    size is not positive and, on data that are not empty, the generator never
    finishes: no number of iterations is enough. *)
Theorem _chunk_data_never_finishes fuel sr sw ch data :
  sr * sw * ch < 10 -> data <> [] ->
  _chunk_data fuel sr sw ch data = None.
Proof.
  intros Hp Hd. unfold _chunk_data. apply chunk_loop_stuck.
  - rewrite chunk_size_of_quot.
    destruct (Z.le_gt_cases 0 (sr * sw * ch)).
    + rewrite Z.quot_small by lia. lia.
    + assert (H0 : (sr * sw * ch) ÷ 10 <= 0 ÷ 10)
        by (apply Z.quot_le_mono; lia).
      rewrite Z.quot_0_l in H0 by lia. exact H0.
  - destruct data; [contradiction | unfold len; cbn [length]; lia].
Qed.

Lemma _chunk_data_never_finishes_witness :
  _chunk_data 1000 4 2 1 stereo_frames = None.
Proof.
  apply (_chunk_data_never_finishes 1000 4 2 1 stereo_frames);
    [lia | discriminate].
Defined.
